(** * BitGo statics: coin feature contracts and the network catalogue

    A shallow embedding of [src/base.ts] (coin enumerations, the
    [BaseCoin] constructor and its [validateOptions] check) and of
    [networks.ts] (the network classes and the frozen [Networks] table),
    followed by the properties of the feature-contract validation and of
    the catalogue.

    JavaScript objects that the code shares and mutates are kept in an
    explicit store; everything else is a pure value. *)

From stdpp Require Import base decidable option list strings.
From Stdlib Require Import ZArith Ascii.

#[local] Set Warnings "-register-all".

Local Open Scope string_scope.
Local Open Scope Z_scope.
Local Open Scope list_scope.

(* ===================================================================== *)
(** ** Enumerations of [base.ts]

    The enumerations are [const enum]s with string members: at run time a
    member is its string, given here by [value]. *)
(* ===================================================================== *)

Module CoinKind.
Inductive t := CRYPTO | FIAT.

Definition value (k : t) : string :=
  match k with CRYPTO => "crypto" | FIAT => "fiat" end.
End CoinKind.

Module CoinFamily.
Inductive t :=
  | ALGO | BCH | BSV | BTC | BTG | DASH | ETH | EOS
  | LTC | OFC | RMG | SUSD | XLM | XRP | ZEC.

Definition value (f : t) : string :=
  match f with
  | ALGO => "algo" | BCH => "bch" | BSV => "bsv" | BTC => "btc"
  | BTG => "btg" | DASH => "dash" | ETH => "eth" | EOS => "eos"
  | LTC => "ltc" | OFC => "ofc" | RMG => "rmg" | SUSD => "susd"
  | XLM => "xlm" | XRP => "xrp" | ZEC => "zec"
  end.
End CoinFamily.

Module CoinFeature.
Inductive t :=
  | VALUELESS_TRANSFER
  | TRANSACTION_DATA
  | REQUIRES_BIG_NUMBER
  | REQUIRES_KRS_BACKUP_KEY
  | PAYGO
  | UNSPENT_MODEL
  | ACCOUNT_MODEL
  | CHILD_PAYS_FOR_PARENT
  | WRAPPED_SEGWIT
  | NATIVE_SEGWIT
  | SUPPORTS_TOKENS.

Definition value (f : t) : string :=
  match f with
  | VALUELESS_TRANSFER => "valueless-transfer"
  | TRANSACTION_DATA => "transaction-data"
  | REQUIRES_BIG_NUMBER => "requires-big-number"
  | REQUIRES_KRS_BACKUP_KEY => "requires-krs-backup-key"
  | PAYGO => "paygo"
  | UNSPENT_MODEL => "unspent-model"
  | ACCOUNT_MODEL => "account-model"
  | CHILD_PAYS_FOR_PARENT => "cpfp"
  | WRAPPED_SEGWIT => "wrapped-segwit"
  | NATIVE_SEGWIT => "native-segwit"
  | SUPPORTS_TOKENS => "supports-tokens"
  end.

(** Features are compared as a [Set<CoinFeature>] compares them: by
    value.  Distinct members have distinct strings
    ([CoinFeature_value_inj] below), so equality of members is equality
    of the run-time strings. *)
#[global] Instance eq_dec : EqDecision t.
Proof. solve_decision. Defined.
End CoinFeature.

Module UnderlyingAsset.
Inductive t :=
  | ALGO | BCH | BSV | BTC | BTG | DASH | USD | ETH | EOS | LTC | XRP | XLM
  | ZEC | ABT | AE | AERGO | AGI | AION | AMN | AMON | ANA | ANT | AOA
  | APPC | AST | AUDX | AUTO | AXPR | BAT | BAX | BBX | BCAP | BCIO | BID
  | BIRD | BLZ | BNB | BNK | BNT | BNTY | BOX | BRD | BST | BTM | BTT | BTU
  | BUY | CADX | CAG | CBAT | CBC | CDAG | CDAI | CDT | CETH | CEL | CENNZ
  | CGLD | CHFX | CHSB | CLN | CMT | CND | CNYX | CPAY | CPLT | CQX | CREP
  | CRO | CRPT | CS | CSLV | CUSDC | CVC | CZRX | DAI | DATA | DCN | DENT
  | DEW | DGD | DGX | DRGN | DROP | DRPU | DRV | DTR | ECHT | EDR | EGL
  | ELF | ENG | ENJ | ERC | ETHOS | ETO | EURS | EURX | EUX | FET | FMF
  | FSN | FUN | FXRT | GBPX | GEN | GLDX | GNO | GNT | GNX | GOT | GTO
  | GUSD | GVT | HEDG | HLC | HOLD | HOT | HPB | HQT | HST | HT | HXRO
  | HYB | HYDRO | ICN | ICX | INCX | IND | IOST | ISR | JBC | JPYX | KCS
  | KEY | KIN | KNC | KZE | LBA | LEO | LGO | LINK | LION | LNC | LOOM
  | LRC | MAN | MANA | MCO | MCX | MDX | MEDX | MET | META | MFG | MFT
  | MITH | MKR | MTCN | MTL | MVL | NAS | NCASH | NEU | NEXO | NMR | NPXS
  | NULS | NZDX | OMG | ONL | OPT | ORBS | OST | PAX | PAY | PAYX | PDATA
  | PLC | PLR | PLX | PMA | POE | POLY | POWR | PPP | PPT | PRDX | PRL
  | PRO | QASH | QRL | QSP | QUASH | QVT | R | RBY | RDN | REB | REBL | REP
  | REQ | RFR | RHOC | RLC | ROOBEE | RUBX | RUFF | SALT | SAN | SHK | SHR
  | SLOT | SLVX | SMT | SNOV | SNT | SPO | SRN | SRNT | STORJ | STORM | SUB
  | TAUD | TEN | TENX | THETA | TIOX | TKX | TMS | TNT | TRST | TRX | TUSD
  | UKG | UPBTC | UPP | UPT | UPUSD | UQC | USDC | USDT | USDX | USX
  | VALOR | VDX | VEE | VEN | VERI | WAX | WBTC | WHT | WPX | WTC | XCD
  | XIN | XRL | YSEY | ZCO | ZIL | ZIX | ZOOM | ZRX | TEST | SCHZ | TCAT.
End UnderlyingAsset.

(* ===================================================================== *)
(** ** JavaScript objects, prototypes and classes

    [networks.ts] declares its networks as classes whose bodies consist of
    property declarations with initialisers, instantiates each class once
    and freezes the instance.  Two testnet classes read
    [Bitcoin.prototype.messagePrefix] and the like, so the embedding keeps
    what such a read depends on: the own properties of an object and its
    prototype chain. *)
(* ===================================================================== *)

Inductive JSVal :=
  | VUndefined
  | VString (s : string)
  | VNumber (n : Z)
  | VFunction (name : string)
  | VRecord (props : list (string * JSVal)).

(** An object: its own properties in creation order, its prototype, and
    whether [Object.freeze] was applied to it. *)
Inductive JSObject :=
  | mkObject (own : list (string * JSVal)) (proto : option JSObject)
             (frozen : bool).

Definition own (o : JSObject) : list (string * JSVal) :=
  match o with mkObject ps _ _ => ps end.

Definition proto (o : JSObject) : option JSObject :=
  match o with mkObject _ p _ => p end.

Definition frozen (o : JSObject) : bool :=
  match o with mkObject _ _ b => b end.

Fixpoint own_lookup (ps : list (string * JSVal)) (key : string)
  : option JSVal :=
  match ps with
  | [] => None
  | (k, v) :: ps' => if String.eqb k key then Some v else own_lookup ps' key
  end.

(** [o.key]: the own property if there is one, otherwise the property
    of the prototype chain, otherwise [undefined]. *)
Fixpoint get (o : JSObject) (key : string) : JSVal :=
  match o with
  | mkObject ps p _ =>
      match own_lookup ps key with
      | Some v => v
      | None => match p with
                | Some o' => get o' key
                | None => VUndefined
                end
      end
  end.

(** [r.key] on a plain record value such as the [bip32] literal. *)
Definition field (v : JSVal) (key : string) : JSVal :=
  match v with
  | VRecord ps => default VUndefined (own_lookup ps key)
  | _ => VUndefined
  end.

Fixpoint own_update (ps : list (string * JSVal)) (key : string) (v : JSVal)
  : list (string * JSVal) :=
  match ps with
  | [] => [(key, v)]
  | (k, w) :: ps' =>
      if String.eqb k key then (k, v) :: ps' else (k, w) :: own_update ps' key v
  end.

(** [this.key = v] as a class constructor performs it on the object under
    construction: the property becomes an own property of [this].  No
    code of these modules writes to an object after it was frozen, and
    the embedding leaves a frozen object as it is. *)
Definition set (o : JSObject) (key : string) (v : JSVal) : JSObject :=
  match o with
  | mkObject ps p true => mkObject ps p true
  | mkObject ps p false => mkObject (own_update ps key v) p false
  end.

Definition Object_freeze (o : JSObject) : JSObject :=
  match o with mkObject ps p _ => mkObject ps p true end.

(** [Object.prototype] with its function-valued properties, which every
    object inherits.  The accessor [__proto__] is left out: its value is
    an object, and no code of these modules reads it. *)
Definition Object_prototype : JSObject :=
  mkObject
    [ ("constructor", VFunction "Object");
      ("hasOwnProperty", VFunction "hasOwnProperty");
      ("isPrototypeOf", VFunction "isPrototypeOf");
      ("propertyIsEnumerable", VFunction "propertyIsEnumerable");
      ("toLocaleString", VFunction "toLocaleString");
      ("toString", VFunction "toString");
      ("valueOf", VFunction "valueOf");
      ("__defineGetter__", VFunction "__defineGetter__");
      ("__defineSetter__", VFunction "__defineSetter__");
      ("__lookupGetter__", VFunction "__lookupGetter__");
      ("__lookupSetter__", VFunction "__lookupSetter__") ]
    None false.

(** A class: the object [C.prototype] and the constructor, which runs the
    base constructor and then the property initialisers of the class
    body on [this].

    A property declaration [p = e;] of a class body is not placed on
    [C.prototype]: it is an assignment [this.p = e] executed by the
    constructor for every new instance.  [C.prototype] holds the
    [constructor] link and the methods of the class body, and the classes
    of [networks.ts] declare no method. *)
Record JSClass := {
  prototype : JSObject;
  init : JSObject -> JSObject
}.

(** [class name { body }] *)
Definition class (name : string) (body : JSObject -> JSObject) : JSClass :=
  {| prototype :=
       mkObject [("constructor", VFunction name)] (Some Object_prototype) false;
     init := body |}.

(** [class name extends Base { body }] *)
Definition class_extends (name : string) (Base : JSClass)
    (body : JSObject -> JSObject) : JSClass :=
  {| prototype :=
       mkObject [("constructor", VFunction name)] (Some (prototype Base)) false;
     init := fun this => body (init Base this) |}.

(** [new C()] *)
Definition new (C : JSClass) : JSObject :=
  init C (mkObject [] (Some (prototype C)) false).

(* ===================================================================== *)
(** ** [networks.ts] *)
(* ===================================================================== *)

Module NetworkType.
Inductive t := MAINNET | TESTNET.

Definition value (k : t) : string :=
  match k with MAINNET => "mainnet" | TESTNET => "testnet" end.
End NetworkType.

Definition enum_family (f : CoinFamily.t) : JSVal :=
  VString (CoinFamily.value f).

Definition Mainnet : JSClass :=
  class "Mainnet" (fun this =>
    set this "type" (VString (NetworkType.value NetworkType.MAINNET))).

Definition Testnet : JSClass :=
  class "Testnet" (fun this =>
    set this "type" (VString (NetworkType.value NetworkType.TESTNET))).

Definition Ethereum : JSClass :=
  class_extends "Ethereum" Mainnet (fun this =>
    set this "family" (enum_family CoinFamily.ETH)).

Definition Kovan : JSClass :=
  class_extends "Kovan" Testnet (fun this =>
    set this "family" (get (prototype Ethereum) "family")).

Definition BTC_FAMILY_MAINNET_BIP32_PUBLIC : Z := 0x0488b21e.
Definition BTC_FAMILY_MAINNET_BIP32_PRIVATE : Z := 0x0488ade4.
Definition BTC_FAMILY_WIF : Z := 0x80.

(** The escapes of the message prefixes: [\x18], [\x19] and [\n]. *)
Definition x18 : ascii := "024"%char.
Definition x19 : ascii := "025"%char.
Definition LF : string := String "010"%char "".

Definition bip32_keys (pub priv : Z) : JSVal :=
  VRecord [("public", VNumber pub); ("private", VNumber priv)].

Definition Bitcoin : JSClass :=
  class_extends "Bitcoin" Mainnet (fun this =>
    let this := set this "messagePrefix"
                  (VString (String x18 "Bitcoin Signed Message:" +:+ LF)) in
    let this := set this "bech32" (VString "bc") in
    let this := set this "bip32"
                  (bip32_keys BTC_FAMILY_MAINNET_BIP32_PUBLIC
                              BTC_FAMILY_MAINNET_BIP32_PRIVATE) in
    let this := set this "pubKeyHash" (VNumber 0x00) in
    let this := set this "scriptHash" (VNumber 0x05) in
    let this := set this "wif" (VNumber BTC_FAMILY_WIF) in
    set this "family" (enum_family CoinFamily.BTC)).

Definition BitcoinTestnet : JSClass :=
  class_extends "BitcoinTestnet" Testnet (fun this =>
    let this := set this "bech32" (VString "tb") in
    let this := set this "bip32" (bip32_keys 0x043587cf 0x04358394) in
    let this := set this "pubKeyHash" (VNumber 0x6f) in
    let this := set this "scriptHash" (VNumber 0xc4) in
    let this := set this "wif" (VNumber 0xef) in
    (* fields "inherited" from the Bitcoin mainnet *)
    let this := set this "messagePrefix"
                  (get (prototype Bitcoin) "messagePrefix") in
    set this "family" (get (prototype Bitcoin) "family")).

Definition BitcoinGold : JSClass :=
  class_extends "BitcoinGold" Mainnet (fun this =>
    let this := set this "messagePrefix"
                  (VString (String x18 "Bitcoin Gold Signed Message:" +:+ LF)) in
    let this := set this "bech32" (VString "btg") in
    let this := set this "bip32"
                  (bip32_keys BTC_FAMILY_MAINNET_BIP32_PUBLIC
                              BTC_FAMILY_MAINNET_BIP32_PRIVATE) in
    let this := set this "pubKeyHash" (VNumber 0x26) in
    let this := set this "scriptHash" (VNumber 0x17) in
    let this := set this "wif" (VNumber BTC_FAMILY_WIF) in
    set this "family" (enum_family CoinFamily.BTG)).

Definition Litecoin : JSClass :=
  class_extends "Litecoin" Mainnet (fun this =>
    let this := set this "messagePrefix"
                  (VString (String x19 "Litecoin Signed Message:" +:+ LF)) in
    let this := set this "bech32" (VString "ltc") in
    let this := set this "bip32"
                  (bip32_keys BTC_FAMILY_MAINNET_BIP32_PUBLIC
                              BTC_FAMILY_MAINNET_BIP32_PRIVATE) in
    let this := set this "pubKeyHash" (VNumber 0x30) in
    let this := set this "scriptHash" (VNumber 0x32) in
    let this := set this "wif" (VNumber 0xb0) in
    set this "family" (enum_family CoinFamily.LTC)).

Definition LitecoinTestnet : JSClass :=
  class_extends "LitecoinTestnet" Testnet (fun this =>
    let this := set this "bech32" (VString "tltc") in
    let this := set this "bip32"
                  (bip32_keys BTC_FAMILY_MAINNET_BIP32_PUBLIC
                              BTC_FAMILY_MAINNET_BIP32_PRIVATE) in
    let this := set this "pubKeyHash" (VNumber 0x6f) in
    let this := set this "scriptHash" (VNumber 0x3a) in
    let this := set this "wif" (VNumber 0xb0) in
    (* fields "inherited" from the Litecoin mainnet *)
    let this := set this "messagePrefix"
                  (get (prototype Litecoin) "messagePrefix") in
    set this "family" (get (prototype Litecoin) "family")).

Definition Ripple : JSClass :=
  class_extends "Ripple" Mainnet (fun this =>
    set this "family" (enum_family CoinFamily.XRP)).

Definition RippleTestnet : JSClass :=
  class_extends "RippleTestnet" Testnet (fun this =>
    set this "family" (get (prototype Ripple) "family")).

Definition Stellar : JSClass :=
  class_extends "Stellar" Mainnet (fun this =>
    set this "family" (enum_family CoinFamily.XLM)).

Definition StellarTestnet : JSClass :=
  class_extends "StellarTestnet" Testnet (fun this =>
    set this "family" (get (prototype Stellar) "family")).

Module Networks.
Module main.
Definition bitcoin : JSObject := Object_freeze (new Bitcoin).
Definition bitcoinGold : JSObject := Object_freeze (new BitcoinGold).
Definition litecoin : JSObject := Object_freeze (new Litecoin).
Definition ethereum : JSObject := Object_freeze (new Ethereum).
Definition ripple : JSObject := Object_freeze (new Ripple).
Definition stellar : JSObject := Object_freeze (new Stellar).
End main.
Module test.
Definition bitcoin : JSObject := Object_freeze (new BitcoinTestnet).
Definition litecoin : JSObject := Object_freeze (new LitecoinTestnet).
Definition kovan : JSObject := Object_freeze (new Kovan).
Definition ripple : JSObject := Object_freeze (new RippleTestnet).
Definition stellar : JSObject := Object_freeze (new StellarTestnet).
End test.
End Networks.

(** The mainnet network a testnet belongs to, as the class bodies name
    it ([Bitcoin.prototype] in [BitcoinTestnet], and so on). *)
Definition testnets : list (JSObject * JSObject) :=
  [ (Networks.test.bitcoin, Networks.main.bitcoin);
    (Networks.test.litecoin, Networks.main.litecoin);
    (Networks.test.kovan, Networks.main.ethereum);
    (Networks.test.ripple, Networks.main.ripple);
    (Networks.test.stellar, Networks.main.stellar) ].

Definition utxo_testnets : list (JSObject * JSObject) :=
  [ (Networks.test.bitcoin, Networks.main.bitcoin);
    (Networks.test.litecoin, Networks.main.litecoin) ].

(** The columns of the parameter table, read off a network object:
    kind, bech32, bip32 public and private, pubKeyHash, scriptHash, wif. *)
Definition parameters (net : JSObject) : list JSVal :=
  [ get net "type"; get net "bech32";
    field (get net "bip32") "public"; field (get net "bip32") "private";
    get net "pubKeyHash"; get net "scriptHash"; get net "wif" ].

(* ===================================================================== *)
(** ** [Set] objects and the store

    [validateOptions] receives two [Set<CoinFeature>] objects from the
    coin class and deletes elements from one of them.  A [Set] object is
    therefore a cell of a store, addressed by a reference, and holds its
    elements in insertion order, which is the order in which
    [Array.from] lists them. *)
(* ===================================================================== *)

Abbreviation JSSet := (list CoinFeature.t) (only parsing).
Abbreviation ref := nat (only parsing).
Abbreviation Store := (list (list CoinFeature.t)) (only parsing).

(** The elements of the [Set] a reference denotes.  The reference of a
    [Set] that was created denotes a cell; the default covers the
    references that denote none. *)
Definition contents (σ : Store) (s : ref) : JSSet := default [] (σ !! s).

(** The elements of [new Set(xs)]: those of [xs] in the order of their
    first occurrence, as adding an element twice changes nothing. *)
Fixpoint uniq (xs : list CoinFeature.t) : list CoinFeature.t :=
  match xs with
  | [] => []
  | x :: xs' => x :: filter (λ y, y ≠ x) (uniq xs')
  end.

(** Modelled from the spec: the three error classes that [base.ts]
    imports from [./errors], each with the arguments [validateOptions]
    passes to its constructor: the coin name and the feature or features
    at fault. *)
Inductive CoinError :=
  | ConflictingCoinFeaturesError
      (coinName : string) (conflictingFeatures : list CoinFeature.t)
  | DisallowedCoinFeatureError
      (coinName : string) (feature : CoinFeature.t)
  | MissingRequiredCoinFeatureError
      (coinName : string) (missingFeatures : list CoinFeature.t).

(** A computation of [base.ts]: it may change the store, and it either
    returns or throws.  What was written before a [throw] stays written. *)
Definition M (A : Type) : Type := Store → Store * (CoinError + A).

#[global] Instance M_ret : MRet M := λ A x σ, (σ, inr x).

#[global] Instance M_bind : MBind M := λ A B f m σ,
  match m σ with
  | (σ', inr x) => f x σ'
  | (σ', inl e) => (σ', inl e)
  end.

Definition throw {A : Type} (e : CoinError) : M A := λ σ, (σ, inl e).

(** [s.has(x)] *)
Definition Set_has (s : ref) (x : CoinFeature.t) : M bool :=
  λ σ, (σ, inr (bool_decide (x ∈ contents σ s))).

(** [s.delete(x)]: removes [x], keeps the order of the other elements,
    and returns whether [x] was an element. *)
Definition Set_delete (s : ref) (x : CoinFeature.t) : M bool :=
  λ σ, (<[s := filter (λ y, y ≠ x) (contents σ s)]> σ,
        inr (bool_decide (x ∈ contents σ s))).

(** [s.size] *)
Definition Set_size (s : ref) : M nat :=
  λ σ, (σ, inr (length (contents σ s))).

(** [Array.from(s)] *)
Definition Array_from (s : ref) : M (list CoinFeature.t) :=
  λ σ, (σ, inr (contents σ s)).

(** [xs.filter(p)] with a callback that reads the store. *)
Fixpoint Array_filter (p : CoinFeature.t → M bool) (xs : list CoinFeature.t)
  : M (list CoinFeature.t) :=
  match xs with
  | [] => mret []
  | x :: xs' =>
      keep ← p x;
      rest ← Array_filter p xs';
      mret (if keep : bool then x :: rest else rest)
  end.

(* ===================================================================== *)
(** ** [BaseCoin] *)
(* ===================================================================== *)

(** Modelled from the spec: the type [BaseNetwork] that [base.ts] imports
    from [./networks] but that module does not declare.  The spec gives a
    network a [{family, kind}] base shared by the UTXO and the account
    shape; the constructor reads [family] only, so a network is any
    object of [networks.ts]. *)
Abbreviation BaseNetwork := JSObject (only parsing).

(** The fields of the options carry the prefix [opt_], as [BaseCoin]
    has fields of the same names.  The optional [prefix] and [suffix]
    are options; the number [decimalPlaces] is an integer. *)
Record BaseCoinConstructorOptions := {
  opt_fullName : string;
  opt_name : string;
  opt_prefix : option string;
  opt_suffix : option string;
  opt_kind : CoinKind.t;
  opt_isToken : bool;
  opt_features : list CoinFeature.t;
  opt_decimalPlaces : Z;
  opt_asset : UnderlyingAsset.t;
  opt_network : BaseNetwork
}.

(** The two abstract methods of [BaseCoin], which a coin subclass
    overrides.  Each returns a reference to a [Set] object and may
    create it in the store. *)
Record CoinClass := {
  requiredFeatures : Store → Store * ref;
  disallowedFeatures : Store → Store * ref
}.

Definition call (method : Store → Store * ref) : M ref :=
  λ σ, let '(σ', s) := method σ in (σ', inr s).

(** Modelled from the spec: the coin subclasses are not part of
    [base.ts]; the spec has each class carry its contract as data.  A
    method body that creates the set anew at each call,
    [return new Set<CoinFeature>([...xs]);]. *)
Definition fresh_set (xs : list CoinFeature.t) : Store → Store * ref :=
  λ σ, (σ ++ [uniq xs], length σ).

(** Modelled from the spec: a method body of a subclass that keeps its
    set and returns the one object at every call. *)
Definition kept_set (s : ref) : Store → Store * ref := λ σ, (σ, s).

(** The instance fields of [BaseCoin], all [readonly]. *)
Record BaseCoin := {
  fullName : string;
  name : string;
  prefix : option string;
  suffix : option string;
  kind : CoinKind.t;
  family : JSVal;
  isToken : bool;
  features : list CoinFeature.t;
  network : BaseNetwork;
  decimalPlaces : Z;
  asset : UnderlyingAsset.t
}.

(** The body of [for (const feature of options.features)]. *)
Fixpoint validateOptions_loop (coinName : string)
    (requiredSet disallowedSet : ref) (feats : list CoinFeature.t) : M unit :=
  match feats with
  | [] => mret ()
  | feature :: feats' =>
      disallowed ← Set_has disallowedSet feature;
      if disallowed : bool
      then throw (DisallowedCoinFeatureError coinName feature)
      else
        required ← Set_has requiredSet feature;
        (if required : bool then Set_delete requiredSet feature
         else mret false);;
        validateOptions_loop coinName requiredSet disallowedSet feats'
  end.

Definition validateOptions (cls : CoinClass)
    (options : BaseCoinConstructorOptions) : M unit :=
  requiredSet ← call (requiredFeatures cls);
  disallowedSet ← call (disallowedFeatures cls);
  elements ← Array_from requiredSet;
  intersectionFeatures ←
    Array_filter (λ feat, Set_has disallowedSet feat) elements;
  if (0 <? length intersectionFeatures)%nat
  then throw (ConflictingCoinFeaturesError (opt_name options)
                                           intersectionFeatures)
  else
    validateOptions_loop (opt_name options) requiredSet disallowedSet
                         (opt_features options);;
    size ← Set_size requiredSet;
    if (0 <? size)%nat
    then
      (* some required features were missing *)
      missing ← Array_from requiredSet;
      throw (MissingRequiredCoinFeatureError (opt_name options) missing)
    else mret ().

(** [constructor(options)]: a coin is returned only when
    [validateOptions] returns. *)
Definition BaseCoin_constructor (cls : CoinClass)
    (options : BaseCoinConstructorOptions) : M BaseCoin :=
  validateOptions cls options;;
  mret {| fullName := opt_fullName options;
          name := opt_name options;
          prefix := opt_prefix options;
          suffix := opt_suffix options;
          kind := opt_kind options;
          family := get (opt_network options) "family";
          isToken := opt_isToken options;
          features := opt_features options;
          decimalPlaces := opt_decimalPlaces options;
          asset := opt_asset options;
          network := opt_network options |}.

(** What [validateOptions] works on: the store after its two method
    calls, and the references they returned. *)
Definition obtained (cls : CoinClass) (σ : Store) : Store * ref * ref :=
  let '(σ1, r) := requiredFeatures cls σ in
  let '(σ2, d) := disallowedFeatures cls σ1 in
  (σ2, r, d).

(** The elements of [requiredFeatures()] and of [disallowedFeatures()]
    at that point. *)
Definition required_of (cls : CoinClass) (σ : Store) : JSSet :=
  let '(σ2, r, _) := obtained cls σ in contents σ2 r.

Definition disallowed_of (cls : CoinClass) (σ : Store) : JSSet :=
  let '(σ2, _, d) := obtained cls σ in contents σ2 d.

(** [xs ∩ ys] and [xs − ys], in the order of [xs]. *)
Definition intersection (xs ys : list CoinFeature.t) : list CoinFeature.t :=
  filter (λ f, f ∈ ys) xs.

Definition difference (xs ys : list CoinFeature.t) : list CoinFeature.t :=
  filter (λ f, f ∉ ys) xs.

(** The two sets are different objects, or the one object is empty: the
    situations in which deleting from the first cannot change what the
    second contains. *)
Definition separate (σ : Store) (r d : ref) : Prop :=
  r ≠ d ∨ contents σ r = [].

Definition with_features (options : BaseCoinConstructorOptions)
    (fs : list CoinFeature.t) : BaseCoinConstructorOptions :=
  {| opt_fullName := opt_fullName options;
     opt_name := opt_name options;
     opt_prefix := opt_prefix options;
     opt_suffix := opt_suffix options;
     opt_kind := opt_kind options;
     opt_isToken := opt_isToken options;
     opt_features := fs;
     opt_decimalPlaces := opt_decimalPlaces options;
     opt_asset := opt_asset options;
     opt_network := opt_network options |}.

(** Modelled from the spec: the coin class of Scenario C, which requires
    the unspent model and forbids the account model, in the two ways a
    subclass can hand out its sets, and the options of a coin. *)
Module ScenarioC.
Import CoinFeature.

Definition utxo : CoinClass :=
  {| requiredFeatures := fresh_set [UNSPENT_MODEL];
     disallowedFeatures := fresh_set [ACCOUNT_MODEL] |}.

(** The same contract with the two sets created once, at references 0
    and 1 of [kept_store]. *)
Definition utxo_kept : CoinClass :=
  {| requiredFeatures := kept_set 0;
     disallowedFeatures := kept_set 1 |}.

Definition kept_store : Store := [[UNSPENT_MODEL]; [ACCOUNT_MODEL]].

(** A class whose contract contradicts itself. *)
Definition conflicting : CoinClass :=
  {| requiredFeatures := fresh_set [UNSPENT_MODEL; CHILD_PAYS_FOR_PARENT];
     disallowedFeatures := fresh_set [CHILD_PAYS_FOR_PARENT] |}.

Definition btc (fs : list CoinFeature.t) : BaseCoinConstructorOptions :=
  {| opt_fullName := "Bitcoin";
     opt_name := "btc";
     opt_prefix := None;
     opt_suffix := None;
     opt_kind := CoinKind.CRYPTO;
     opt_isToken := false;
     opt_features := fs;
     opt_decimalPlaces := 8;
     opt_asset := UnderlyingAsset.BTC;
     opt_network := Networks.main.bitcoin |}.
End ScenarioC.

(* ===================================================================== *)
(** ** Further definitions: the verdict as a function, the members of the
    enumerations, the sections of the catalogue *)
(* ===================================================================== *)

(** The first feature of [fs] that is in [D], and the features the loop
    of [validateOptions] has passed when it meets it. *)
Fixpoint first_disallowed_in (D fs : list CoinFeature.t)
  : option CoinFeature.t :=
  match fs with
  | [] => None
  | f :: fs' => if decide (f ∈ D) then Some f else first_disallowed_in D fs'
  end.

Fixpoint visited (D fs : list CoinFeature.t) : list CoinFeature.t :=
  match fs with
  | [] => []
  | f :: fs' => if decide (f ∈ D) then [] else f :: visited D fs'
  end.

(** The validation as section 4.3 of the spec words it: a function of the
    coin name, the supplied features and the elements of the two sets,
    with no store.  It is compared with [validateOptions] below. *)
Definition spec_validate (coinName : string)
    (provided required disallowed : list CoinFeature.t) : CoinError + unit :=
  match intersection required disallowed with
  | (_ :: _) as conflict => inl (ConflictingCoinFeaturesError coinName conflict)
  | [] =>
      match first_disallowed_in disallowed provided with
      | Some f => inl (DisallowedCoinFeatureError coinName f)
      | None =>
          match difference required provided with
          | [] => inr ()
          | (_ :: _) as missing =>
              inl (MissingRequiredCoinFeatureError coinName missing)
          end
      end
  end.

(** The coin that the constructor assembles from its options. *)
Definition coin_of (options : BaseCoinConstructorOptions) : BaseCoin :=
  {| fullName := opt_fullName options;
     name := opt_name options;
     prefix := opt_prefix options;
     suffix := opt_suffix options;
     kind := opt_kind options;
     family := get (opt_network options) "family";
     isToken := opt_isToken options;
     features := opt_features options;
     decimalPlaces := opt_decimalPlaces options;
     asset := opt_asset options;
     network := opt_network options |}.

(** The members of [CoinFeature] and of [CoinFamily], in the order of
    their declaration. *)
Definition CoinFeature_members : list CoinFeature.t :=
  [ CoinFeature.VALUELESS_TRANSFER; CoinFeature.TRANSACTION_DATA;
    CoinFeature.REQUIRES_BIG_NUMBER; CoinFeature.REQUIRES_KRS_BACKUP_KEY;
    CoinFeature.PAYGO; CoinFeature.UNSPENT_MODEL; CoinFeature.ACCOUNT_MODEL;
    CoinFeature.CHILD_PAYS_FOR_PARENT; CoinFeature.WRAPPED_SEGWIT;
    CoinFeature.NATIVE_SEGWIT; CoinFeature.SUPPORTS_TOKENS ].

Definition CoinFamily_members : list CoinFamily.t :=
  [ CoinFamily.ALGO; CoinFamily.BCH; CoinFamily.BSV; CoinFamily.BTC;
    CoinFamily.BTG; CoinFamily.DASH; CoinFamily.ETH; CoinFamily.EOS;
    CoinFamily.LTC; CoinFamily.OFC; CoinFamily.RMG; CoinFamily.SUSD;
    CoinFamily.XLM; CoinFamily.XRP; CoinFamily.ZEC ].

(** The string of each member of [UnderlyingAsset]. *)
Definition UnderlyingAsset_value (a : UnderlyingAsset.t) : string :=
  match a with
  | UnderlyingAsset.ALGO => "algo" | UnderlyingAsset.BCH => "bch"
  | UnderlyingAsset.BSV => "bsv" | UnderlyingAsset.BTC => "btc"
  | UnderlyingAsset.BTG => "btg" | UnderlyingAsset.DASH => "dash"
  | UnderlyingAsset.USD => "usd" | UnderlyingAsset.ETH => "eth"
  | UnderlyingAsset.EOS => "eos" | UnderlyingAsset.LTC => "ltc"
  | UnderlyingAsset.XRP => "xrp" | UnderlyingAsset.XLM => "xlm"
  | UnderlyingAsset.ZEC => "zec" | UnderlyingAsset.ABT => "abt"
  | UnderlyingAsset.AE => "ae" | UnderlyingAsset.AERGO => "aergo"
  | UnderlyingAsset.AGI => "agi" | UnderlyingAsset.AION => "aion"
  | UnderlyingAsset.AMN => "amn" | UnderlyingAsset.AMON => "amon"
  | UnderlyingAsset.ANA => "ana" | UnderlyingAsset.ANT => "ant"
  | UnderlyingAsset.AOA => "aoa" | UnderlyingAsset.APPC => "appc"
  | UnderlyingAsset.AST => "ast" | UnderlyingAsset.AUDX => "audx"
  | UnderlyingAsset.AUTO => "auto" | UnderlyingAsset.AXPR => "axpr"
  | UnderlyingAsset.BAT => "bat" | UnderlyingAsset.BAX => "bax"
  | UnderlyingAsset.BBX => "bbx" | UnderlyingAsset.BCAP => "bcap"
  | UnderlyingAsset.BCIO => "bcio" | UnderlyingAsset.BID => "bid"
  | UnderlyingAsset.BIRD => "bird" | UnderlyingAsset.BLZ => "blz"
  | UnderlyingAsset.BNB => "bnb" | UnderlyingAsset.BNK => "bnk"
  | UnderlyingAsset.BNT => "bnt" | UnderlyingAsset.BNTY => "bnty"
  | UnderlyingAsset.BOX => "box" | UnderlyingAsset.BRD => "brd"
  | UnderlyingAsset.BST => "bst" | UnderlyingAsset.BTM => "btm"
  | UnderlyingAsset.BTT => "btt" | UnderlyingAsset.BTU => "btu"
  | UnderlyingAsset.BUY => "buy" | UnderlyingAsset.CADX => "cadx"
  | UnderlyingAsset.CAG => "cag" | UnderlyingAsset.CBAT => "cbat"
  | UnderlyingAsset.CBC => "cbc" | UnderlyingAsset.CDAG => "cdag"
  | UnderlyingAsset.CDAI => "cdai" | UnderlyingAsset.CDT => "cdt"
  | UnderlyingAsset.CETH => "ceth" | UnderlyingAsset.CEL => "cel"
  | UnderlyingAsset.CENNZ => "cennz" | UnderlyingAsset.CGLD => "cgld"
  | UnderlyingAsset.CHFX => "chfx" | UnderlyingAsset.CHSB => "chsb"
  | UnderlyingAsset.CLN => "cln" | UnderlyingAsset.CMT => "cmt"
  | UnderlyingAsset.CND => "cnd" | UnderlyingAsset.CNYX => "cnyx"
  | UnderlyingAsset.CPAY => "cpay" | UnderlyingAsset.CPLT => "cplt"
  | UnderlyingAsset.CQX => "cqx" | UnderlyingAsset.CREP => "crep"
  | UnderlyingAsset.CRO => "cro" | UnderlyingAsset.CRPT => "crpt"
  | UnderlyingAsset.CS => "cs" | UnderlyingAsset.CSLV => "cslv"
  | UnderlyingAsset.CUSDC => "cusdc" | UnderlyingAsset.CVC => "cvc"
  | UnderlyingAsset.CZRX => "czrx" | UnderlyingAsset.DAI => "dai"
  | UnderlyingAsset.DATA => "data" | UnderlyingAsset.DCN => "dcn"
  | UnderlyingAsset.DENT => "dent" | UnderlyingAsset.DEW => "dew"
  | UnderlyingAsset.DGD => "dgd" | UnderlyingAsset.DGX => "dgx"
  | UnderlyingAsset.DRGN => "drgn" | UnderlyingAsset.DROP => "drop"
  | UnderlyingAsset.DRPU => "drpu" | UnderlyingAsset.DRV => "drv"
  | UnderlyingAsset.DTR => "dtr" | UnderlyingAsset.ECHT => "echt"
  | UnderlyingAsset.EDR => "edr" | UnderlyingAsset.EGL => "egl"
  | UnderlyingAsset.ELF => "elf" | UnderlyingAsset.ENG => "eng"
  | UnderlyingAsset.ENJ => "enj" | UnderlyingAsset.ERC => "erc"
  | UnderlyingAsset.ETHOS => "ethos" | UnderlyingAsset.ETO => "eto"
  | UnderlyingAsset.EURS => "eurs" | UnderlyingAsset.EURX => "eurx"
  | UnderlyingAsset.EUX => "eux" | UnderlyingAsset.FET => "fet"
  | UnderlyingAsset.FMF => "fmf" | UnderlyingAsset.FSN => "fsn"
  | UnderlyingAsset.FUN => "fun" | UnderlyingAsset.FXRT => "fxrt"
  | UnderlyingAsset.GBPX => "gbpx" | UnderlyingAsset.GEN => "gen"
  | UnderlyingAsset.GLDX => "gldx" | UnderlyingAsset.GNO => "gno"
  | UnderlyingAsset.GNT => "gnt" | UnderlyingAsset.GNX => "gnx"
  | UnderlyingAsset.GOT => "got" | UnderlyingAsset.GTO => "gto"
  | UnderlyingAsset.GUSD => "gusd" | UnderlyingAsset.GVT => "gvt"
  | UnderlyingAsset.HEDG => "hedg" | UnderlyingAsset.HLC => "hlc"
  | UnderlyingAsset.HOLD => "hold" | UnderlyingAsset.HOT => "hot"
  | UnderlyingAsset.HPB => "hpb" | UnderlyingAsset.HQT => "hqt"
  | UnderlyingAsset.HST => "hst" | UnderlyingAsset.HT => "ht"
  | UnderlyingAsset.HXRO => "hxro" | UnderlyingAsset.HYB => "hyb"
  | UnderlyingAsset.HYDRO => "hydro" | UnderlyingAsset.ICN => "icn"
  | UnderlyingAsset.ICX => "icx" | UnderlyingAsset.INCX => "incx"
  | UnderlyingAsset.IND => "ind" | UnderlyingAsset.IOST => "iost"
  | UnderlyingAsset.ISR => "isr" | UnderlyingAsset.JBC => "jbc"
  | UnderlyingAsset.JPYX => "jpyx" | UnderlyingAsset.KCS => "kcs"
  | UnderlyingAsset.KEY => "key" | UnderlyingAsset.KIN => "kin"
  | UnderlyingAsset.KNC => "knc" | UnderlyingAsset.KZE => "kze"
  | UnderlyingAsset.LBA => "lba" | UnderlyingAsset.LEO => "leo"
  | UnderlyingAsset.LGO => "lgo" | UnderlyingAsset.LINK => "link"
  | UnderlyingAsset.LION => "lion" | UnderlyingAsset.LNC => "lnc"
  | UnderlyingAsset.LOOM => "loom" | UnderlyingAsset.LRC => "lrc"
  | UnderlyingAsset.MAN => "man" | UnderlyingAsset.MANA => "mana"
  | UnderlyingAsset.MCO => "mco" | UnderlyingAsset.MCX => "mcx"
  | UnderlyingAsset.MDX => "mdx" | UnderlyingAsset.MEDX => "medx"
  | UnderlyingAsset.MET => "met" | UnderlyingAsset.META => "meta"
  | UnderlyingAsset.MFG => "mfg" | UnderlyingAsset.MFT => "mft"
  | UnderlyingAsset.MITH => "mith" | UnderlyingAsset.MKR => "mkr"
  | UnderlyingAsset.MTCN => "mtcn" | UnderlyingAsset.MTL => "mtl"
  | UnderlyingAsset.MVL => "mvl" | UnderlyingAsset.NAS => "nas"
  | UnderlyingAsset.NCASH => "ncash" | UnderlyingAsset.NEU => "neu"
  | UnderlyingAsset.NEXO => "nexo" | UnderlyingAsset.NMR => "nmr"
  | UnderlyingAsset.NPXS => "npxs" | UnderlyingAsset.NULS => "nuls"
  | UnderlyingAsset.NZDX => "nzdx" | UnderlyingAsset.OMG => "omg"
  | UnderlyingAsset.ONL => "onl" | UnderlyingAsset.OPT => "opt"
  | UnderlyingAsset.ORBS => "orbs" | UnderlyingAsset.OST => "ost"
  | UnderlyingAsset.PAX => "pax" | UnderlyingAsset.PAY => "pay"
  | UnderlyingAsset.PAYX => "payx" | UnderlyingAsset.PDATA => "pdata"
  | UnderlyingAsset.PLC => "plc" | UnderlyingAsset.PLR => "plr"
  | UnderlyingAsset.PLX => "plx" | UnderlyingAsset.PMA => "pma"
  | UnderlyingAsset.POE => "poe" | UnderlyingAsset.POLY => "poly"
  | UnderlyingAsset.POWR => "powr" | UnderlyingAsset.PPP => "ppp"
  | UnderlyingAsset.PPT => "ppt" | UnderlyingAsset.PRDX => "prdx"
  | UnderlyingAsset.PRL => "prl" | UnderlyingAsset.PRO => "pro"
  | UnderlyingAsset.QASH => "qash" | UnderlyingAsset.QRL => "qrl"
  | UnderlyingAsset.QSP => "qsp" | UnderlyingAsset.QUASH => "quash"
  | UnderlyingAsset.QVT => "qvt" | UnderlyingAsset.R => "r"
  | UnderlyingAsset.RBY => "rby" | UnderlyingAsset.RDN => "rdn"
  | UnderlyingAsset.REB => "reb" | UnderlyingAsset.REBL => "rebl"
  | UnderlyingAsset.REP => "rep" | UnderlyingAsset.REQ => "req"
  | UnderlyingAsset.RFR => "rfr" | UnderlyingAsset.RHOC => "rhoc"
  | UnderlyingAsset.RLC => "rlc" | UnderlyingAsset.ROOBEE => "roobee"
  | UnderlyingAsset.RUBX => "rubx" | UnderlyingAsset.RUFF => "ruff"
  | UnderlyingAsset.SALT => "salt" | UnderlyingAsset.SAN => "san"
  | UnderlyingAsset.SHK => "shk" | UnderlyingAsset.SHR => "shr"
  | UnderlyingAsset.SLOT => "slot" | UnderlyingAsset.SLVX => "slvx"
  | UnderlyingAsset.SMT => "smt" | UnderlyingAsset.SNOV => "snov"
  | UnderlyingAsset.SNT => "snt" | UnderlyingAsset.SPO => "spo"
  | UnderlyingAsset.SRN => "srn" | UnderlyingAsset.SRNT => "srnt"
  | UnderlyingAsset.STORJ => "storj" | UnderlyingAsset.STORM => "storm"
  | UnderlyingAsset.SUB => "sub" | UnderlyingAsset.TAUD => "taud"
  | UnderlyingAsset.TEN => "ten" | UnderlyingAsset.TENX => "tenx"
  | UnderlyingAsset.THETA => "theta" | UnderlyingAsset.TIOX => "tiox"
  | UnderlyingAsset.TKX => "tkx" | UnderlyingAsset.TMS => "tms"
  | UnderlyingAsset.TNT => "tnt" | UnderlyingAsset.TRST => "trst"
  | UnderlyingAsset.TRX => "trx" | UnderlyingAsset.TUSD => "tusd"
  | UnderlyingAsset.UKG => "ukg" | UnderlyingAsset.UPBTC => "upbtc"
  | UnderlyingAsset.UPP => "upp" | UnderlyingAsset.UPT => "upt"
  | UnderlyingAsset.UPUSD => "upusd" | UnderlyingAsset.UQC => "uqc"
  | UnderlyingAsset.USDC => "usdc" | UnderlyingAsset.USDT => "usdt"
  | UnderlyingAsset.USDX => "usdx" | UnderlyingAsset.USX => "usx"
  | UnderlyingAsset.VALOR => "valor" | UnderlyingAsset.VDX => "vdx"
  | UnderlyingAsset.VEE => "vee" | UnderlyingAsset.VEN => "ven"
  | UnderlyingAsset.VERI => "veri" | UnderlyingAsset.WAX => "wax"
  | UnderlyingAsset.WBTC => "wbtc" | UnderlyingAsset.WHT => "wht"
  | UnderlyingAsset.WPX => "wpx" | UnderlyingAsset.WTC => "wtc"
  | UnderlyingAsset.XCD => "xcd" | UnderlyingAsset.XIN => "xin"
  | UnderlyingAsset.XRL => "xrl" | UnderlyingAsset.YSEY => "ysey"
  | UnderlyingAsset.ZCO => "zco" | UnderlyingAsset.ZIL => "zil"
  | UnderlyingAsset.ZIX => "zix" | UnderlyingAsset.ZOOM => "zoom"
  | UnderlyingAsset.ZRX => "zrx" | UnderlyingAsset.TEST => "test"
  | UnderlyingAsset.SCHZ => "schz" | UnderlyingAsset.TCAT => "tcat"
  end.

Definition UnderlyingAsset_members : list UnderlyingAsset.t :=
  [ UnderlyingAsset.ALGO; UnderlyingAsset.BCH; UnderlyingAsset.BSV;
    UnderlyingAsset.BTC; UnderlyingAsset.BTG; UnderlyingAsset.DASH;
    UnderlyingAsset.USD; UnderlyingAsset.ETH; UnderlyingAsset.EOS;
    UnderlyingAsset.LTC; UnderlyingAsset.XRP; UnderlyingAsset.XLM;
    UnderlyingAsset.ZEC; UnderlyingAsset.ABT; UnderlyingAsset.AE;
    UnderlyingAsset.AERGO; UnderlyingAsset.AGI; UnderlyingAsset.AION;
    UnderlyingAsset.AMN; UnderlyingAsset.AMON; UnderlyingAsset.ANA;
    UnderlyingAsset.ANT; UnderlyingAsset.AOA; UnderlyingAsset.APPC;
    UnderlyingAsset.AST; UnderlyingAsset.AUDX; UnderlyingAsset.AUTO;
    UnderlyingAsset.AXPR; UnderlyingAsset.BAT; UnderlyingAsset.BAX;
    UnderlyingAsset.BBX; UnderlyingAsset.BCAP; UnderlyingAsset.BCIO;
    UnderlyingAsset.BID; UnderlyingAsset.BIRD; UnderlyingAsset.BLZ;
    UnderlyingAsset.BNB; UnderlyingAsset.BNK; UnderlyingAsset.BNT;
    UnderlyingAsset.BNTY; UnderlyingAsset.BOX; UnderlyingAsset.BRD;
    UnderlyingAsset.BST; UnderlyingAsset.BTM; UnderlyingAsset.BTT;
    UnderlyingAsset.BTU; UnderlyingAsset.BUY; UnderlyingAsset.CADX;
    UnderlyingAsset.CAG; UnderlyingAsset.CBAT; UnderlyingAsset.CBC;
    UnderlyingAsset.CDAG; UnderlyingAsset.CDAI; UnderlyingAsset.CDT;
    UnderlyingAsset.CETH; UnderlyingAsset.CEL; UnderlyingAsset.CENNZ;
    UnderlyingAsset.CGLD; UnderlyingAsset.CHFX; UnderlyingAsset.CHSB;
    UnderlyingAsset.CLN; UnderlyingAsset.CMT; UnderlyingAsset.CND;
    UnderlyingAsset.CNYX; UnderlyingAsset.CPAY; UnderlyingAsset.CPLT;
    UnderlyingAsset.CQX; UnderlyingAsset.CREP; UnderlyingAsset.CRO;
    UnderlyingAsset.CRPT; UnderlyingAsset.CS; UnderlyingAsset.CSLV;
    UnderlyingAsset.CUSDC; UnderlyingAsset.CVC; UnderlyingAsset.CZRX;
    UnderlyingAsset.DAI; UnderlyingAsset.DATA; UnderlyingAsset.DCN;
    UnderlyingAsset.DENT; UnderlyingAsset.DEW; UnderlyingAsset.DGD;
    UnderlyingAsset.DGX; UnderlyingAsset.DRGN; UnderlyingAsset.DROP;
    UnderlyingAsset.DRPU; UnderlyingAsset.DRV; UnderlyingAsset.DTR;
    UnderlyingAsset.ECHT; UnderlyingAsset.EDR; UnderlyingAsset.EGL;
    UnderlyingAsset.ELF; UnderlyingAsset.ENG; UnderlyingAsset.ENJ;
    UnderlyingAsset.ERC; UnderlyingAsset.ETHOS; UnderlyingAsset.ETO;
    UnderlyingAsset.EURS; UnderlyingAsset.EURX; UnderlyingAsset.EUX;
    UnderlyingAsset.FET; UnderlyingAsset.FMF; UnderlyingAsset.FSN;
    UnderlyingAsset.FUN; UnderlyingAsset.FXRT; UnderlyingAsset.GBPX;
    UnderlyingAsset.GEN; UnderlyingAsset.GLDX; UnderlyingAsset.GNO;
    UnderlyingAsset.GNT; UnderlyingAsset.GNX; UnderlyingAsset.GOT;
    UnderlyingAsset.GTO; UnderlyingAsset.GUSD; UnderlyingAsset.GVT;
    UnderlyingAsset.HEDG; UnderlyingAsset.HLC; UnderlyingAsset.HOLD;
    UnderlyingAsset.HOT; UnderlyingAsset.HPB; UnderlyingAsset.HQT;
    UnderlyingAsset.HST; UnderlyingAsset.HT; UnderlyingAsset.HXRO;
    UnderlyingAsset.HYB; UnderlyingAsset.HYDRO; UnderlyingAsset.ICN;
    UnderlyingAsset.ICX; UnderlyingAsset.INCX; UnderlyingAsset.IND;
    UnderlyingAsset.IOST; UnderlyingAsset.ISR; UnderlyingAsset.JBC;
    UnderlyingAsset.JPYX; UnderlyingAsset.KCS; UnderlyingAsset.KEY;
    UnderlyingAsset.KIN; UnderlyingAsset.KNC; UnderlyingAsset.KZE;
    UnderlyingAsset.LBA; UnderlyingAsset.LEO; UnderlyingAsset.LGO;
    UnderlyingAsset.LINK; UnderlyingAsset.LION; UnderlyingAsset.LNC;
    UnderlyingAsset.LOOM; UnderlyingAsset.LRC; UnderlyingAsset.MAN;
    UnderlyingAsset.MANA; UnderlyingAsset.MCO; UnderlyingAsset.MCX;
    UnderlyingAsset.MDX; UnderlyingAsset.MEDX; UnderlyingAsset.MET;
    UnderlyingAsset.META; UnderlyingAsset.MFG; UnderlyingAsset.MFT;
    UnderlyingAsset.MITH; UnderlyingAsset.MKR; UnderlyingAsset.MTCN;
    UnderlyingAsset.MTL; UnderlyingAsset.MVL; UnderlyingAsset.NAS;
    UnderlyingAsset.NCASH; UnderlyingAsset.NEU; UnderlyingAsset.NEXO;
    UnderlyingAsset.NMR; UnderlyingAsset.NPXS; UnderlyingAsset.NULS;
    UnderlyingAsset.NZDX; UnderlyingAsset.OMG; UnderlyingAsset.ONL;
    UnderlyingAsset.OPT; UnderlyingAsset.ORBS; UnderlyingAsset.OST;
    UnderlyingAsset.PAX; UnderlyingAsset.PAY; UnderlyingAsset.PAYX;
    UnderlyingAsset.PDATA; UnderlyingAsset.PLC; UnderlyingAsset.PLR;
    UnderlyingAsset.PLX; UnderlyingAsset.PMA; UnderlyingAsset.POE;
    UnderlyingAsset.POLY; UnderlyingAsset.POWR; UnderlyingAsset.PPP;
    UnderlyingAsset.PPT; UnderlyingAsset.PRDX; UnderlyingAsset.PRL;
    UnderlyingAsset.PRO; UnderlyingAsset.QASH; UnderlyingAsset.QRL;
    UnderlyingAsset.QSP; UnderlyingAsset.QUASH; UnderlyingAsset.QVT;
    UnderlyingAsset.R; UnderlyingAsset.RBY; UnderlyingAsset.RDN;
    UnderlyingAsset.REB; UnderlyingAsset.REBL; UnderlyingAsset.REP;
    UnderlyingAsset.REQ; UnderlyingAsset.RFR; UnderlyingAsset.RHOC;
    UnderlyingAsset.RLC; UnderlyingAsset.ROOBEE; UnderlyingAsset.RUBX;
    UnderlyingAsset.RUFF; UnderlyingAsset.SALT; UnderlyingAsset.SAN;
    UnderlyingAsset.SHK; UnderlyingAsset.SHR; UnderlyingAsset.SLOT;
    UnderlyingAsset.SLVX; UnderlyingAsset.SMT; UnderlyingAsset.SNOV;
    UnderlyingAsset.SNT; UnderlyingAsset.SPO; UnderlyingAsset.SRN;
    UnderlyingAsset.SRNT; UnderlyingAsset.STORJ; UnderlyingAsset.STORM;
    UnderlyingAsset.SUB; UnderlyingAsset.TAUD; UnderlyingAsset.TEN;
    UnderlyingAsset.TENX; UnderlyingAsset.THETA; UnderlyingAsset.TIOX;
    UnderlyingAsset.TKX; UnderlyingAsset.TMS; UnderlyingAsset.TNT;
    UnderlyingAsset.TRST; UnderlyingAsset.TRX; UnderlyingAsset.TUSD;
    UnderlyingAsset.UKG; UnderlyingAsset.UPBTC; UnderlyingAsset.UPP;
    UnderlyingAsset.UPT; UnderlyingAsset.UPUSD; UnderlyingAsset.UQC;
    UnderlyingAsset.USDC; UnderlyingAsset.USDT; UnderlyingAsset.USDX;
    UnderlyingAsset.USX; UnderlyingAsset.VALOR; UnderlyingAsset.VDX;
    UnderlyingAsset.VEE; UnderlyingAsset.VEN; UnderlyingAsset.VERI;
    UnderlyingAsset.WAX; UnderlyingAsset.WBTC; UnderlyingAsset.WHT;
    UnderlyingAsset.WPX; UnderlyingAsset.WTC; UnderlyingAsset.XCD;
    UnderlyingAsset.XIN; UnderlyingAsset.XRL; UnderlyingAsset.YSEY;
    UnderlyingAsset.ZCO; UnderlyingAsset.ZIL; UnderlyingAsset.ZIX;
    UnderlyingAsset.ZOOM; UnderlyingAsset.ZRX; UnderlyingAsset.TEST;
    UnderlyingAsset.SCHZ; UnderlyingAsset.TCAT ].

(** The member of [UnderlyingAsset] that has a given string, if any. *)
Definition UnderlyingAsset_of_value (s : string) : option UnderlyingAsset.t :=
  List.find (λ a, String.eqb (UnderlyingAsset_value a) s)
            UnderlyingAsset_members.

(** The sections [Networks.main] and [Networks.test], and the networks
    by shape. *)
Definition mainnets : list JSObject :=
  [ Networks.main.bitcoin; Networks.main.bitcoinGold; Networks.main.litecoin;
    Networks.main.ethereum; Networks.main.ripple; Networks.main.stellar ].

Definition testnet_networks : list JSObject :=
  [ Networks.test.bitcoin; Networks.test.litecoin; Networks.test.kovan;
    Networks.test.ripple; Networks.test.stellar ].

Definition utxo_networks : list JSObject :=
  [ Networks.main.bitcoin; Networks.main.bitcoinGold; Networks.main.litecoin;
    Networks.test.bitcoin; Networks.test.litecoin ].

Definition account_networks : list JSObject :=
  [ Networks.main.ethereum; Networks.main.ripple; Networks.main.stellar;
    Networks.test.kovan; Networks.test.ripple; Networks.test.stellar ].

(** Each mainnet network with the family its class declares. *)
Definition mainnet_families : list (JSObject * CoinFamily.t) :=
  [ (Networks.main.bitcoin, CoinFamily.BTC);
    (Networks.main.bitcoinGold, CoinFamily.BTG);
    (Networks.main.litecoin, CoinFamily.LTC);
    (Networks.main.ethereum, CoinFamily.ETH);
    (Networks.main.ripple, CoinFamily.XRP);
    (Networks.main.stellar, CoinFamily.XLM) ].

(** The fields of [UtxoNetwork] that [AccountNetwork] lacks. *)
Definition address_parameters : list string :=
  [ "messagePrefix"; "bech32"; "bip32"; "pubKeyHash"; "scriptHash"; "wif" ].




(** The numbers a UTXO network holds: the three version bytes, and the
    two [bip32] versions. *)
Definition version_bytes (net : JSObject) : list JSVal :=
  [ get net "pubKeyHash"; get net "scriptHash"; get net "wif" ].

Definition bip32_versions (net : JSObject) : list JSVal :=
  [ field (get net "bip32") "public"; field (get net "bip32") "private" ].

Definition number_below (bound : Z) (v : JSVal) : Prop :=
  match v with
  | VNumber n => 0 ≤ n < bound
  | _ => False
  end.

(* ===================================================================== *)
(** ** Properties of the store operations *)
(* ===================================================================== *)

Lemma CoinFeature_value_inj (f g : CoinFeature.t) :
  CoinFeature.value f = CoinFeature.value g → f = g.
Proof. destruct f, g; intros H; (reflexivity || discriminate H). Qed.

Section store.
Implicit Types (σ : Store) (r d s : ref) (x y f : CoinFeature.t).
Implicit Types (xs ys fs R D : list CoinFeature.t).

Lemma insert_contents σ s : <[s := contents σ s]> σ = σ.
Proof.
  apply list_insert_id'. intros Hlt.
  destruct (lookup_lt_is_Some_2 σ s Hlt) as [v Hv].
  unfold contents. by rewrite Hv.
Qed.

Lemma contents_insert_ne σ r s v : r ≠ s → contents (<[r := v]> σ) s = contents σ s.
Proof. intros Hne. unfold contents. by rewrite list_lookup_insert_ne. Qed.

Lemma contents_insert_filter σ r (P : CoinFeature.t → Prop) `{∀ x, Decision (P x)} :
  contents (<[r := filter P (contents σ r)]> σ) r = filter P (contents σ r).
Proof.
  destruct (decide (r < length σ)%nat) as [Hlt|Hge].
  - unfold contents at 1. by rewrite list_lookup_insert_eq.
  - rewrite list_insert_ge by lia.
    unfold contents. rewrite lookup_ge_None_2 by lia. done.
Qed.

Lemma contents_insert_difference σ r ys :
  contents (<[r := difference (contents σ r) ys]> σ) r
  = difference (contents σ r) ys.
Proof. apply contents_insert_filter. Qed.

Lemma delete_absent σ r x :
  x ∉ contents σ r → <[r := filter (λ y, y ≠ x) (contents σ r)]> σ = σ.
Proof.
  intros Hx.
  assert (filter (λ y, y ≠ x) (contents σ r) = contents σ r) as ->.
  { induction (contents σ r) as [|a R IH]; [done|].
    rewrite not_elem_of_cons in Hx. destruct Hx as [Hxa HxR].
    rewrite filter_cons_True by congruence. by rewrite IH. }
  apply insert_contents.
Qed.

Lemma difference_nil xs : difference xs [] = xs.
Proof.
  unfold difference. induction xs as [|a xs IH]; [done|].
  rewrite filter_cons_True; [by rewrite IH | apply not_elem_of_nil].
Qed.

Lemma difference_cons xs x ys :
  difference (filter (λ y, y ≠ x) xs) ys = difference xs (x :: ys).
Proof.
  unfold difference. rewrite list_filter_filter. apply list_filter_iff.
  intros a. rewrite not_elem_of_cons. tauto.
Qed.

Lemma elem_of_difference f xs ys : f ∈ difference xs ys ↔ f ∈ xs ∧ f ∉ ys.
Proof. unfold difference. rewrite list_elem_of_filter. tauto. Qed.

Lemma elem_of_intersection f xs ys : f ∈ intersection xs ys ↔ f ∈ xs ∧ f ∈ ys.
Proof. unfold intersection. rewrite list_elem_of_filter. tauto. Qed.

End store.

(* ===================================================================== *)
(** ** What a run of [validateOptions] does *)
(* ===================================================================== *)

Section runs.
Implicit Types (σ : Store) (r d s : ref) (x y f : CoinFeature.t).
Implicit Types (xs ys fs pre post R D : list CoinFeature.t).
Implicit Types (n : string) (cls : CoinClass).
Implicit Types (options : BaseCoinConstructorOptions).

Lemma loop_nil n r d σ : validateOptions_loop n r d [] σ = (σ, inr ()).
Proof. reflexivity. Qed.

Lemma loop_cons_disallowed n r d x fs σ :
  x ∈ contents σ d →
  validateOptions_loop n r d (x :: fs) σ
  = (σ, inl (DisallowedCoinFeatureError n x)).
Proof.
  intros Hx. cbn [validateOptions_loop]. unfold mbind, M_bind, Set_has.
  by rewrite bool_decide_true.
Qed.

Lemma loop_cons_allowed n r d x fs σ :
  x ∉ contents σ d →
  validateOptions_loop n r d (x :: fs) σ
  = validateOptions_loop n r d fs
      (<[r := filter (λ y, y ≠ x) (contents σ r)]> σ).
Proof.
  intros Hx. cbn [validateOptions_loop]. unfold mbind, M_bind, Set_has.
  rewrite bool_decide_false by done.
  destruct (decide (x ∈ contents σ r)) as [Hr|Hr].
  - rewrite bool_decide_true by done. reflexivity.
  - rewrite bool_decide_false by done. cbn. by rewrite delete_absent.
Qed.

Lemma separate_delete σ r d x :
  separate σ r d →
  let σ' := <[r := filter (λ y, y ≠ x) (contents σ r)]> σ in
  contents σ' d = contents σ d ∧ separate σ' r d.
Proof.
  intros [Hne|Hnil]; cbn.
  - split; [by apply contents_insert_ne | by left].
  - rewrite delete_absent; [|rewrite Hnil; apply not_elem_of_nil].
    split; [done | by right].
Qed.

Lemma loop_through n r d fs : ∀ σ,
  separate σ r d →
  Forall (λ f, f ∉ contents σ d) fs →
  validateOptions_loop n r d fs σ
  = (<[r := difference (contents σ r) fs]> σ, inr ()).
Proof.
  induction fs as [|x fs IH]; intros σ Hsep Hall.
  - by rewrite loop_nil, difference_nil, insert_contents.
  - apply Forall_cons in Hall as [Hx Hall].
    rewrite loop_cons_allowed by done.
    destruct (separate_delete σ r d x Hsep) as [Hd Hsep'].
    rewrite IH; [|done|by rewrite Hd].
    rewrite contents_insert_filter, list_insert_insert_eq.
    by rewrite difference_cons.
Qed.

Lemma loop_stop n r d f post pre : ∀ σ,
  separate σ r d →
  Forall (λ f, f ∉ contents σ d) pre →
  f ∈ contents σ d →
  validateOptions_loop n r d (pre ++ f :: post) σ
  = (<[r := difference (contents σ r) pre]> σ,
     inl (DisallowedCoinFeatureError n f)).
Proof.
  induction pre as [|x pre IH]; intros σ Hsep Hall Hf.
  - cbn [app]. rewrite loop_cons_disallowed by done.
    by rewrite difference_nil, insert_contents.
  - apply Forall_cons in Hall as [Hx Hall].
    rewrite <- app_comm_cons, loop_cons_allowed by done.
    destruct (separate_delete σ r d x Hsep) as [Hd Hsep'].
    rewrite IH; [|done|by rewrite Hd|by rewrite Hd].
    rewrite contents_insert_filter, list_insert_insert_eq.
    by rewrite difference_cons.
Qed.

Lemma Array_filter_has d xs σ :
  Array_filter (λ feat, Set_has d feat) xs σ
  = (σ, inr (intersection xs (contents σ d))).
Proof.
  unfold intersection. induction xs as [|x xs IH]; [done|].
  cbn [Array_filter]. unfold mbind at 1, M_bind at 1.
  change (Set_has d x σ) with (σ, inr (B := bool) (A := CoinError) (bool_decide (x ∈ contents σ d))).
  cbn iota. unfold mbind at 1, M_bind at 1. rewrite IH.
  unfold mret, M_ret. rewrite filter_cons.
  destruct (decide (x ∈ contents σ d)).
  - by rewrite bool_decide_true.
  - by rewrite bool_decide_false.
Qed.

Lemma intersection_self xs : intersection xs xs = xs.
Proof.
  unfold intersection.
  assert (∀ ys, (∀ x, x ∈ ys → x ∈ xs) → filter (λ f, f ∈ xs) ys = ys) as H.
  { induction ys as [|a ys IH]; intros Hsub; [done|].
    rewrite filter_cons_True by (apply Hsub; left).
    rewrite IH; [done|]. intros x Hx. apply Hsub. by right. }
  by apply H.
Qed.

Lemma disjoint_separate σ r d :
  intersection (contents σ r) (contents σ d) = [] → separate σ r d.
Proof.
  intros Hnil. destruct (decide (r = d)) as [->|Hne]; [right|by left].
  by rewrite intersection_self in Hnil.
Qed.

Lemma ltb_length_nil {A} (l : list A) : (0 <? length l)%nat = false ↔ l = [].
Proof. destruct l; cbn; split; (done || discriminate). Qed.

(** The prelude of [validateOptions]: the method calls and the conflict
    check. *)
Lemma validateOptions_conflict cls options σ σ2 r d :
  obtained cls σ = (σ2, r, d) →
  intersection (contents σ2 r) (contents σ2 d) ≠ [] →
  validateOptions cls options σ
  = (σ2, inl (ConflictingCoinFeaturesError (opt_name options)
                (intersection (contents σ2 r) (contents σ2 d)))).
Proof.
  unfold obtained, validateOptions. intros Hobt Hne.
  unfold mbind at 1, M_bind at 1, call at 1.
  destruct (requiredFeatures cls σ) as [σ1 r'].
  unfold mbind at 1, M_bind at 1, call at 1.
  destruct (disallowedFeatures cls σ1) as [σ2' d'].
  injection Hobt as -> -> ->.
  unfold mbind at 1, M_bind at 1, Array_from at 1.
  unfold mbind at 1, M_bind at 1. rewrite Array_filter_has.
  destruct (0 <? _)%nat eqn:Hlen; [done|].
  by apply ltb_length_nil in Hlen.
Qed.

Lemma validateOptions_wellformed cls options σ σ2 r d :
  obtained cls σ = (σ2, r, d) →
  intersection (contents σ2 r) (contents σ2 d) = [] →
  validateOptions cls options σ
  = match validateOptions_loop (opt_name options) r d
            (opt_features options) σ2 with
    | (σ3, inr _) =>
        if (0 <? length (contents σ3 r))%nat
        then (σ3, inl (MissingRequiredCoinFeatureError (opt_name options)
                         (contents σ3 r)))
        else (σ3, inr ())
    | (σ3, inl e) => (σ3, inl e)
    end.
Proof.
  unfold obtained, validateOptions. intros Hobt Hnil.
  unfold mbind at 1, M_bind at 1, call at 1.
  destruct (requiredFeatures cls σ) as [σ1 r'].
  unfold mbind at 1, M_bind at 1, call at 1.
  destruct (disallowedFeatures cls σ1) as [σ2' d'].
  injection Hobt as -> -> ->.
  unfold mbind at 1, M_bind at 1, Array_from at 1.
  unfold mbind at 1, M_bind at 1. rewrite Array_filter_has, Hnil. cbn [length Nat.ltb Nat.leb].
  unfold mbind at 1, M_bind at 1.
  destruct (validateOptions_loop _ _ _ _ _) as [σ3 [e|[]]]; [done|].
  unfold mbind, M_bind, Set_size, Array_from, throw.
  by destruct (length (contents σ3 r)).
Qed.

End runs.

Section verdicts.
Implicit Types (σ : Store) (r d s : ref) (x y f : CoinFeature.t).
Implicit Types (xs ys fs pre post R D : list CoinFeature.t).
Implicit Types (n : string) (cls : CoinClass).
Implicit Types (options : BaseCoinConstructorOptions).

Lemma first_disallowed D fs :
  (∃ f, f ∈ fs ∧ f ∈ D) →
  ∃ pre f post, fs = pre ++ f :: post ∧ Forall (λ g, g ∉ D) pre ∧ f ∈ D.
Proof.
  induction fs as [|x fs IH]; intros (f & Hin & HD).
  - by apply elem_of_nil in Hin.
  - destruct (decide (x ∈ D)) as [Hx|Hx].
    + by exists [], x, fs.
    + apply elem_of_cons in Hin as [->|Hin]; [done|].
      destruct IH as (pre & g & post & -> & Hpre & Hg); [by exists f|].
      exists (x :: pre), g, post. split_and!; [done|by constructor|done].
Qed.

(** The three ways a run of [validateOptions] on a well-formed contract
    ends, and the one way it ends on a conflicting contract, in terms of
    the sets the class handed out. *)
Lemma run_conflict cls options σ :
  intersection (required_of cls σ) (disallowed_of cls σ) ≠ [] →
  validateOptions cls options σ
  = ((obtained cls σ).1.1,
     inl (ConflictingCoinFeaturesError (opt_name options)
            (intersection (required_of cls σ) (disallowed_of cls σ)))).
Proof.
  unfold required_of, disallowed_of.
  destruct (obtained cls σ) as [[σ2 r] d] eqn:Hobt. intros Hne.
  by apply validateOptions_conflict.
Qed.

Lemma run_disallowed cls options σ pre f post :
  intersection (required_of cls σ) (disallowed_of cls σ) = [] →
  opt_features options = pre ++ f :: post →
  Forall (λ g, g ∉ disallowed_of cls σ) pre →
  f ∈ disallowed_of cls σ →
  validateOptions cls options σ
  = (let '(σ2, r, _) := obtained cls σ in
     <[r := difference (contents σ2 r) pre]> σ2,
     inl (DisallowedCoinFeatureError (opt_name options) f)).
Proof.
  unfold required_of, disallowed_of.
  destruct (obtained cls σ) as [[σ2 r] d] eqn:Hobt. intros Hnil Hfs Hpre Hf.
  rewrite (validateOptions_wellformed _ _ _ _ _ _ Hobt Hnil), Hfs.
  by rewrite loop_stop by auto using disjoint_separate.
Qed.

Lemma run_checked cls options σ :
  intersection (required_of cls σ) (disallowed_of cls σ) = [] →
  Forall (λ g, g ∉ disallowed_of cls σ) (opt_features options) →
  validateOptions cls options σ
  = (let '(σ2, r, _) := obtained cls σ in
     <[r := difference (contents σ2 r) (opt_features options)]> σ2,
     match difference (required_of cls σ) (opt_features options) with
     | [] => inr ()
     | missing =>
         inl (MissingRequiredCoinFeatureError (opt_name options) missing)
     end).
Proof.
  unfold required_of, disallowed_of.
  destruct (obtained cls σ) as [[σ2 r] d] eqn:Hobt. intros Hnil Hall.
  rewrite (validateOptions_wellformed _ _ _ _ _ _ Hobt Hnil).
  rewrite loop_through by auto using disjoint_separate.
  rewrite !contents_insert_difference.
  by destruct (difference _ _).
Qed.

Lemma constructor_throws cls options σ σ' e :
  validateOptions cls options σ = (σ', inl e) →
  BaseCoin_constructor cls options σ = (σ', inl e).
Proof.
  intros Hv. unfold BaseCoin_constructor, mbind, M_bind. by rewrite Hv.
Qed.

Lemma constructor_returns cls options σ σ' :
  validateOptions cls options σ = (σ', inr ()) →
  ∃ coin, BaseCoin_constructor cls options σ = (σ', inr coin).
Proof.
  intros Hv. unfold BaseCoin_constructor, mbind, M_bind. rewrite Hv.
  by eexists.
Qed.

End verdicts.

Section duplicates.
Implicit Types (σ : Store) (r d s : ref) (x y f : CoinFeature.t).
Implicit Types (xs ys fs : list CoinFeature.t).

Lemma elem_of_uniq f fs : f ∈ uniq fs ↔ f ∈ fs.
Proof.
  induction fs as [|x fs IH]; [done|]. cbn [uniq].
  rewrite !elem_of_cons, list_elem_of_filter, IH.
  destruct (decide (f = x)); tauto.
Qed.

Lemma NoDup_filter_ne x xs : NoDup xs → NoDup (filter (λ y, y ≠ x) xs).
Proof.
  induction 1 as [|a xs Ha Hnd IH]; [constructor|].
  rewrite filter_cons. destruct (decide (a ≠ x)); [|done].
  constructor; [|done]. rewrite list_elem_of_filter. tauto.
Qed.

Lemma NoDup_uniq fs : NoDup (uniq fs).
Proof.
  induction fs as [|x fs IH]; cbn [uniq]; constructor.
  - rewrite list_elem_of_filter. tauto.
  - by apply NoDup_filter_ne.
Qed.

(** Deleting from a set leaves no set with more elements. *)
Lemma contents_delete_subseteq σ r s x f :
  f ∈ contents (<[r := filter (λ y, y ≠ x) (contents σ r)]> σ) s →
  f ∈ contents σ s.
Proof.
  destruct (decide (r = s)) as [<-|Hne].
  - rewrite contents_insert_filter, list_elem_of_filter. tauto.
  - by rewrite contents_insert_ne.
Qed.

Lemma contents_delete_gone σ r x :
  x ∉ contents (<[r := filter (λ y, y ≠ x) (contents σ r)]> σ) r.
Proof. rewrite contents_insert_filter, list_elem_of_filter. tauto. Qed.

(** A feature that is in neither set is passed over by the loop. *)
Lemma loop_skip n r d x fs : ∀ σ,
  x ∉ contents σ d → x ∉ contents σ r →
  validateOptions_loop n r d (filter (λ y, y ≠ x) fs) σ
  = validateOptions_loop n r d fs σ.
Proof.
  induction fs as [|y fs IH]; intros σ Hd Hr; [done|].
  destruct (decide (y = x)) as [->|Hne].
  - rewrite filter_cons_False by tauto.
    rewrite (loop_cons_allowed _ _ _ x) by done.
    rewrite delete_absent by done. by apply IH.
  - rewrite filter_cons_True by done.
    destruct (decide (y ∈ contents σ d)) as [Hy|Hy].
    + by rewrite !loop_cons_disallowed.
    + rewrite !loop_cons_allowed by done.
      apply IH; intros Hx; by apply contents_delete_subseteq in Hx.
Qed.

Lemma loop_uniq n r d fs : ∀ σ,
  validateOptions_loop n r d (uniq fs) σ = validateOptions_loop n r d fs σ.
Proof.
  induction fs as [|x fs IH]; intros σ; [done|]. cbn [uniq].
  destruct (decide (x ∈ contents σ d)) as [Hx|Hx].
  - by rewrite !loop_cons_disallowed.
  - rewrite !loop_cons_allowed by done.
    rewrite loop_skip; [apply IH| |apply contents_delete_gone].
    intros Hx'. by apply contents_delete_subseteq in Hx'.
Qed.

End duplicates.

(* ===================================================================== *)
(** ** The feature contract of [BaseCoin] *)
(* ===================================================================== *)

Section contract.
Implicit Types (σ : Store) (r d s : ref) (x y f : CoinFeature.t).
Implicit Types (xs ys fs pre post : list CoinFeature.t).
Implicit Types (cls : CoinClass) (options : BaseCoinConstructorOptions).

(** C1. A coin class with disjoint required and disallowed sets rejects
    every feature list that holds a disallowed feature: construction
    fails with [DisallowedCoinFeatureError], which carries the coin name
    and a supplied feature that is disallowed, whatever else the list
    holds or omits. *)
Theorem disallowed_feature_rejected cls options σ :
  intersection (required_of cls σ) (disallowed_of cls σ) = [] →
  (∃ f, f ∈ opt_features options ∧ f ∈ disallowed_of cls σ) →
  ∃ f, f ∈ opt_features options ∧ f ∈ disallowed_of cls σ ∧
       (BaseCoin_constructor cls options σ).2
       = inl (DisallowedCoinFeatureError (opt_name options) f).
Proof.
  intros Hnil Hex.
  destruct (first_disallowed _ _ Hex) as (pre & f & post & Hfs & Hpre & Hf).
  exists f. split_and!; [|done|].
  - rewrite Hfs, elem_of_app, elem_of_cons. auto.
  - by rewrite (constructor_throws _ _ _ _ _
                  (run_disallowed _ _ _ _ _ _ Hnil Hfs Hpre Hf)).
Qed.

(** C2. On a well-formed contract, a feature list without disallowed
    features that omits a required feature is rejected with
    [MissingRequiredCoinFeatureError], and the error lists exactly the
    required features that the list omits, all of them. *)
Theorem missing_features_reported cls options σ :
  intersection (required_of cls σ) (disallowed_of cls σ) = [] →
  Forall (λ f, f ∉ disallowed_of cls σ) (opt_features options) →
  (∃ f, f ∈ required_of cls σ ∧ f ∉ opt_features options) →
  (BaseCoin_constructor cls options σ).2
  = inl (MissingRequiredCoinFeatureError (opt_name options)
           (difference (required_of cls σ) (opt_features options)))
  ∧ ∀ f, f ∈ difference (required_of cls σ) (opt_features options)
         ↔ f ∈ required_of cls σ ∧ f ∉ opt_features options.
Proof.
  intros Hnil Hall (f & Hreq & Hmiss). split; [|intros; apply elem_of_difference].
  pose proof (run_checked _ _ _ Hnil Hall) as Hrun.
  assert (f ∈ difference (required_of cls σ) (opt_features options)) as Hin
    by by apply elem_of_difference.
  destruct (difference (required_of cls σ) (opt_features options)) as [|g gs];
    [by apply elem_of_nil in Hin|].
  by rewrite (constructor_throws _ _ _ _ _ Hrun).
Qed.

(** C3. A coin class whose required and disallowed sets overlap rejects
    every construction with [ConflictingCoinFeaturesError], which carries
    the coin name and the intersection of the two sets; the supplied
    features play no part, and nothing was deleted from a set. *)
Theorem conflicting_contract_rejected cls options σ :
  (∃ f, f ∈ required_of cls σ ∧ f ∈ disallowed_of cls σ) →
  BaseCoin_constructor cls options σ
  = ((obtained cls σ).1.1,
     inl (ConflictingCoinFeaturesError (opt_name options)
            (intersection (required_of cls σ) (disallowed_of cls σ))))
  ∧ ∀ f, f ∈ intersection (required_of cls σ) (disallowed_of cls σ)
         ↔ f ∈ required_of cls σ ∧ f ∈ disallowed_of cls σ.
Proof.
  intros (f & Hr & Hd). split; [|intros; apply elem_of_intersection].
  apply constructor_throws, run_conflict.
  intros Hnil. eapply elem_of_nil. rewrite <- Hnil.
  by apply elem_of_intersection.
Qed.

(** C9. The feature that [DisallowedCoinFeatureError] reports is the
    first disallowed feature of the supplied list, in the order of that
    list. *)
Theorem first_disallowed_reported cls options σ pre f post :
  intersection (required_of cls σ) (disallowed_of cls σ) = [] →
  opt_features options = pre ++ f :: post →
  Forall (λ g, g ∉ disallowed_of cls σ) pre →
  f ∈ disallowed_of cls σ →
  (BaseCoin_constructor cls options σ).2
  = inl (DisallowedCoinFeatureError (opt_name options) f).
Proof.
  intros Hnil Hfs Hpre Hf.
  by rewrite (constructor_throws _ _ _ _ _
                (run_disallowed _ _ _ _ _ _ Hnil Hfs Hpre Hf)).
Qed.

(** C5. A constructed coin carries the fields of its options unchanged,
    except [family], which is read from the network of the options; so
    the family of a coin is the family of its network. *)
Theorem constructed_fields cls options σ σ' coin :
  BaseCoin_constructor cls options σ = (σ', inr coin) →
  fullName coin = opt_fullName options
  ∧ name coin = opt_name options
  ∧ prefix coin = opt_prefix options
  ∧ suffix coin = opt_suffix options
  ∧ kind coin = opt_kind options
  ∧ isToken coin = opt_isToken options
  ∧ features coin = opt_features options
  ∧ decimalPlaces coin = opt_decimalPlaces options
  ∧ asset coin = opt_asset options
  ∧ network coin = opt_network options
  ∧ family coin = get (opt_network options) "family"
  ∧ family coin = get (network coin) "family".
Proof.
  unfold BaseCoin_constructor, mbind, M_bind, mret, M_ret.
  destruct (validateOptions cls options σ) as [σ3 [e|[]]]; [done|].
  intros [= _ <-]. by cbn.
Qed.

(** C10. Duplicates in the supplied feature list change nothing: the
    list and the list of its distinct features, in the order of their
    first occurrence, give the same run of [validateOptions], with the
    same error and the same store. *)
Theorem duplicates_irrelevant cls options σ :
  validateOptions cls (with_features options (uniq (opt_features options))) σ
  = validateOptions cls options σ
  ∧ NoDup (uniq (opt_features options))
  ∧ ∀ f, f ∈ uniq (opt_features options) ↔ f ∈ opt_features options.
Proof.
  split_and!; [|apply NoDup_uniq|intros; apply elem_of_uniq].
  destruct (obtained cls σ) as [[σ2 r] d] eqn:Hobt.
  destruct (decide (intersection (contents σ2 r) (contents σ2 d) = []))
    as [Hnil|Hne].
  - rewrite !(validateOptions_wellformed _ _ _ _ _ _ Hobt Hnil).
    cbn [with_features opt_name opt_features]. by rewrite loop_uniq.
  - by rewrite !(validateOptions_conflict _ _ _ _ _ _ Hobt Hne).
Qed.

End contract.

(** Runs of Scenario C of the spec. *)
Section scenario.
Import CoinFeature ScenarioC.

Example scenario_accepts :
  (BaseCoin_constructor utxo (btc [UNSPENT_MODEL; CHILD_PAYS_FOR_PARENT]) []).2
  = inr {| fullName := "Bitcoin"; name := "btc"; prefix := None;
           suffix := None; kind := CoinKind.CRYPTO;
           family := VString "btc"; isToken := false;
           features := [UNSPENT_MODEL; CHILD_PAYS_FOR_PARENT];
           network := Networks.main.bitcoin; decimalPlaces := 8;
           asset := UnderlyingAsset.BTC |}.
Proof. reflexivity. Qed.

Example scenario_disallowed :
  (BaseCoin_constructor utxo (btc [ACCOUNT_MODEL]) []).2
  = inl (DisallowedCoinFeatureError "btc" ACCOUNT_MODEL).
Proof. reflexivity. Qed.

Example scenario_missing :
  (BaseCoin_constructor utxo (btc [CHILD_PAYS_FOR_PARENT]) []).2
  = inl (MissingRequiredCoinFeatureError "btc" [UNSPENT_MODEL]).
Proof. reflexivity. Qed.

Lemma disallowed_feature_rejected_witness :
  intersection (required_of utxo []) (disallowed_of utxo []) = []
  ∧ (∃ f, f ∈ opt_features (btc [CHILD_PAYS_FOR_PARENT; ACCOUNT_MODEL])
          ∧ f ∈ disallowed_of utxo [])
  ∧ ∃ f, f ∈ opt_features (btc [CHILD_PAYS_FOR_PARENT; ACCOUNT_MODEL])
         ∧ f ∈ disallowed_of utxo []
         ∧ (BaseCoin_constructor utxo
              (btc [CHILD_PAYS_FOR_PARENT; ACCOUNT_MODEL]) []).2
           = inl (DisallowedCoinFeatureError "btc" f).
Proof.
  assert (intersection (required_of utxo []) (disallowed_of utxo []) = [])
    as Hnil by reflexivity.
  assert (∃ f, f ∈ opt_features (btc [CHILD_PAYS_FOR_PARENT; ACCOUNT_MODEL])
               ∧ f ∈ disallowed_of utxo []) as Hex.
  { exists ACCOUNT_MODEL. split; [right; left | left]. }
  exact (conj Hnil (conj Hex
    (disallowed_feature_rejected utxo
       (btc [CHILD_PAYS_FOR_PARENT; ACCOUNT_MODEL]) [] Hnil Hex))).
Defined.

Lemma missing_features_reported_witness :
  intersection (required_of utxo []) (disallowed_of utxo []) = []
  ∧ Forall (λ f, f ∉ disallowed_of utxo [])
           (opt_features (btc [CHILD_PAYS_FOR_PARENT]))
  ∧ (∃ f, f ∈ required_of utxo []
          ∧ f ∉ opt_features (btc [CHILD_PAYS_FOR_PARENT]))
  ∧ (BaseCoin_constructor utxo (btc [CHILD_PAYS_FOR_PARENT]) []).2
    = inl (MissingRequiredCoinFeatureError "btc" [UNSPENT_MODEL]).
Proof.
  assert (intersection (required_of utxo []) (disallowed_of utxo []) = [])
    as Hnil by reflexivity.
  assert (Forall (λ f, f ∉ disallowed_of utxo [])
                 (opt_features (btc [CHILD_PAYS_FOR_PARENT]))) as Hall.
  { repeat constructor. intros Hin. by apply list_elem_of_singleton in Hin. }
  assert (∃ f, f ∈ required_of utxo []
               ∧ f ∉ opt_features (btc [CHILD_PAYS_FOR_PARENT])) as Hex.
  { exists UNSPENT_MODEL. split; [left|].
    intros Hin. by apply list_elem_of_singleton in Hin. }
  exact (conj Hnil (conj Hall (conj Hex
    (proj1 (missing_features_reported utxo (btc [CHILD_PAYS_FOR_PARENT]) []
              Hnil Hall Hex))))).
Defined.

Lemma conflicting_contract_rejected_witness :
  (∃ f, f ∈ required_of conflicting [] ∧ f ∈ disallowed_of conflicting [])
  ∧ BaseCoin_constructor conflicting (btc [UNSPENT_MODEL]) []
    = ([[UNSPENT_MODEL; CHILD_PAYS_FOR_PARENT]; [CHILD_PAYS_FOR_PARENT]],
       inl (ConflictingCoinFeaturesError "btc" [CHILD_PAYS_FOR_PARENT])).
Proof.
  assert (∃ f, f ∈ required_of conflicting []
               ∧ f ∈ disallowed_of conflicting []) as Hex.
  { exists CHILD_PAYS_FOR_PARENT. split; [right; left | left]. }
  exact (conj Hex
    (proj1 (conflicting_contract_rejected conflicting (btc [UNSPENT_MODEL]) []
              Hex))).
Defined.

Lemma constructed_fields_witness :
  BaseCoin_constructor utxo (btc [UNSPENT_MODEL]) []
  = ([[]; [ACCOUNT_MODEL]],
     inr {| fullName := "Bitcoin"; name := "btc"; prefix := None;
            suffix := None; kind := CoinKind.CRYPTO;
            family := VString "btc"; isToken := false;
            features := [UNSPENT_MODEL];
            network := Networks.main.bitcoin; decimalPlaces := 8;
            asset := UnderlyingAsset.BTC |})
  ∧ VString "btc" = get Networks.main.bitcoin "family".
Proof.
  assert (BaseCoin_constructor utxo (btc [UNSPENT_MODEL]) []
          = ([[]; [ACCOUNT_MODEL]],
             inr {| fullName := "Bitcoin"; name := "btc"; prefix := None;
                    suffix := None; kind := CoinKind.CRYPTO;
                    family := VString "btc"; isToken := false;
                    features := [UNSPENT_MODEL];
                    network := Networks.main.bitcoin; decimalPlaces := 8;
                    asset := UnderlyingAsset.BTC |})) as Hrun by reflexivity.
  pose proof (constructed_fields utxo (btc [UNSPENT_MODEL]) [] _ _ Hrun) as Hf.
  exact (conj Hrun (proj1 (proj2 (proj2 (proj2 (proj2 (proj2 (proj2
          (proj2 (proj2 (proj2 (proj2 Hf)))))))))))).
Defined.

Lemma first_disallowed_reported_witness :
  intersection (required_of utxo []) (disallowed_of utxo []) = []
  ∧ opt_features (btc [PAYGO; ACCOUNT_MODEL; UNSPENT_MODEL; ACCOUNT_MODEL])
    = [PAYGO] ++ ACCOUNT_MODEL :: [UNSPENT_MODEL; ACCOUNT_MODEL]
  ∧ Forall (λ g, g ∉ disallowed_of utxo []) [PAYGO]
  ∧ ACCOUNT_MODEL ∈ disallowed_of utxo []
  ∧ (BaseCoin_constructor utxo
       (btc [PAYGO; ACCOUNT_MODEL; UNSPENT_MODEL; ACCOUNT_MODEL]) []).2
    = inl (DisallowedCoinFeatureError "btc" ACCOUNT_MODEL).
Proof.
  assert (intersection (required_of utxo []) (disallowed_of utxo []) = [])
    as Hnil by reflexivity.
  assert (opt_features (btc [PAYGO; ACCOUNT_MODEL; UNSPENT_MODEL; ACCOUNT_MODEL])
          = [PAYGO] ++ ACCOUNT_MODEL :: [UNSPENT_MODEL; ACCOUNT_MODEL])
    as Hfs by reflexivity.
  assert (Forall (λ g, g ∉ disallowed_of utxo []) [PAYGO]) as Hpre.
  { repeat constructor. intros Hin. by apply list_elem_of_singleton in Hin. }
  assert (ACCOUNT_MODEL ∈ disallowed_of utxo []) as Hf by left.
  exact (conj Hnil (conj Hfs (conj Hpre (conj Hf
    (first_disallowed_reported utxo _ [] _ _ _ Hnil Hfs Hpre Hf))))).
Defined.

(** C6, as the spec states it, fails: a run of [validateOptions] that
    meets a required feature empties it out of the [Set] that
    [requiredFeatures()] returned.  For a class that creates its sets
    anew the changed object is the one just created; for a class that
    keeps its sets it is the required set of the class, and the next
    construction, which supplies no feature at all, is accepted. *)
Lemma validation_deletes_from_required_set :
  (validateOptions utxo (btc [UNSPENT_MODEL]) []).1 ≠ (obtained utxo []).1.1
  ∧ required_of utxo_kept kept_store = [UNSPENT_MODEL]
  ∧ validateOptions utxo_kept (btc [UNSPENT_MODEL]) kept_store
    = ([[]; [ACCOUNT_MODEL]], inr ())
  ∧ required_of utxo_kept
      (validateOptions utxo_kept (btc [UNSPENT_MODEL]) kept_store).1 = []
  ∧ validateOptions utxo_kept (btc []) kept_store
    = (kept_store, inl (MissingRequiredCoinFeatureError "btc" [UNSPENT_MODEL]))
  ∧ validateOptions utxo_kept (btc [])
      (validateOptions utxo_kept (btc [UNSPENT_MODEL]) kept_store).1
    = ([[]; [ACCOUNT_MODEL]], inr ()).
Proof. split_and!; done. Qed.

End scenario.

(* ===================================================================== *)
(** ** The network catalogue *)
(* ===================================================================== *)

(** C7. The UTXO networks of the catalogue hold the values of the
    canonical parameter table. *)
Theorem network_parameter_table :
  parameters Networks.main.bitcoin
  = [ VString "mainnet"; VString "bc"; VNumber 0x0488b21e; VNumber 0x0488ade4;
      VNumber 0x00; VNumber 0x05; VNumber 0x80 ]
  ∧ parameters Networks.test.bitcoin
  = [ VString "testnet"; VString "tb"; VNumber 0x043587cf; VNumber 0x04358394;
      VNumber 0x6f; VNumber 0xc4; VNumber 0xef ]
  ∧ parameters Networks.main.bitcoinGold
  = [ VString "mainnet"; VString "btg"; VNumber 0x0488b21e; VNumber 0x0488ade4;
      VNumber 0x26; VNumber 0x17; VNumber 0x80 ]
  ∧ parameters Networks.main.litecoin
  = [ VString "mainnet"; VString "ltc"; VNumber 0x0488b21e; VNumber 0x0488ade4;
      VNumber 0x30; VNumber 0x32; VNumber 0xb0 ]
  ∧ parameters Networks.test.litecoin
  = [ VString "testnet"; VString "tltc"; VNumber 0x0488b21e; VNumber 0x0488ade4;
      VNumber 0x6f; VNumber 0x3a; VNumber 0xb0 ].
Proof. repeat split. Qed.

(** Every network of the catalogue is frozen. *)
Lemma catalogue_frozen :
  Forall (λ net, frozen net = true ∧ ∀ key v, set net key v = net)
    [ Networks.main.bitcoin; Networks.main.bitcoinGold;
      Networks.main.litecoin; Networks.main.ethereum; Networks.main.ripple;
      Networks.main.stellar; Networks.test.bitcoin; Networks.test.litecoin;
      Networks.test.kovan; Networks.test.ripple; Networks.test.stellar ].
Proof. repeat constructor. Qed.

(** The prototype object of a network class has no property of its own
    besides [constructor], and neither has any object up its chain. *)
Lemma prototype_has_no_field (name key : string) (Base : JSClass)
    (body : JSObject → JSObject) :
  key ≠ "constructor" →
  get (prototype Base) key = VUndefined →
  get (prototype (class_extends name Base body)) key = VUndefined.
Proof.
  intros Hkey HBase. cbn [class_extends prototype get own_lookup].
  destruct (String.eqb_spec "constructor" key) as [<-|_]; [done|].
  destruct (prototype Base); exact HBase.
Qed.

(** C8 fails on the code.  The testnet classes read the family and the
    message prefix off the prototype object of the mainnet class, where
    no such property exists: every testnet of the catalogue has the
    family [undefined], and both UTXO testnets have the message prefix
    [undefined], while their mainnet networks have a family and a
    message prefix. *)
Theorem testnet_inherited_fields_undefined :
  Forall (λ '(testnet, mainnet),
            get testnet "family" = VUndefined
            ∧ get mainnet "family" ≠ get testnet "family") testnets
  ∧ Forall (λ '(testnet, mainnet),
              get testnet "messagePrefix" = VUndefined
              ∧ get mainnet "messagePrefix" ≠ get testnet "messagePrefix")
           utxo_testnets
  ∧ get Networks.main.bitcoin "family" = VString "btc"
  ∧ get Networks.main.bitcoin "messagePrefix"
    = VString (String x18 "Bitcoin Signed Message:" +:+ LF).
Proof.
  split_and!; [| |done|done]; repeat constructor; done.
Qed.

(* ===================================================================== *)
(** ** The verdict of the validation as a function of the two sets *)
(* ===================================================================== *)

Section verdict_function.
Implicit Types (σ : Store) (r d s : ref) (x y f : CoinFeature.t).
Implicit Types (xs ys fs pre post R D : list CoinFeature.t).
Implicit Types (n : string) (cls : CoinClass).
Implicit Types (options : BaseCoinConstructorOptions).

Lemma first_disallowed_in_None D fs :
  first_disallowed_in D fs = None ↔ Forall (λ g, g ∉ D) fs.
Proof.
  induction fs as [|x fs IH]; cbn [first_disallowed_in].
  - split; [constructor|done].
  - rewrite Forall_cons. destruct (decide (x ∈ D)); [|tauto].
    split; [done|tauto].
Qed.

Lemma first_disallowed_in_Some D fs f :
  first_disallowed_in D fs = Some f
  ↔ ∃ pre post, fs = pre ++ f :: post ∧ Forall (λ g, g ∉ D) pre ∧ f ∈ D.
Proof.
  induction fs as [|x fs IH]; cbn [first_disallowed_in].
  - split; [done|]. intros (pre & post & Hfs & _). by destruct pre.
  - destruct (decide (x ∈ D)) as [Hx|Hx].
    + split.
      * intros [= <-]. by exists [], fs.
      * intros ([|y pre] & post & Hfs & Hpre & Hf); injection Hfs as -> ->.
        -- done.
        -- by apply Forall_cons in Hpre as [? _].
    + rewrite IH. split.
      * intros (pre & post & -> & Hpre & Hf).
        exists (x :: pre), post. split_and!; [done|by constructor|done].
      * intros ([|y pre] & post & Hfs & Hpre & Hf); injection Hfs as -> ->.
        -- done.
        -- apply Forall_cons in Hpre as [_ Hpre]. by exists pre, post.
Qed.

Lemma visited_all D fs : Forall (λ g, g ∉ D) fs → visited D fs = fs.
Proof.
  induction 1 as [|x fs Hx _ IH]; cbn [visited]; [done|].
  destruct (decide (x ∈ D)); [done|by rewrite IH].
Qed.

Lemma visited_stop D pre f post :
  Forall (λ g, g ∉ D) pre → f ∈ D → visited D (pre ++ f :: post) = pre.
Proof.
  intros Hpre Hf. induction Hpre as [|x pre Hx _ IH]; cbn [visited app].
  - by destruct (decide (f ∈ D)).
  - destruct (decide (x ∈ D)); [done|by rewrite IH].
Qed.

(** A run of [validateOptions] in full: the store it leaves and its
    verdict. *)
Lemma validateOptions_run cls options σ σ2 r d :
  obtained cls σ = (σ2, r, d) →
  validateOptions cls options σ
  = (match intersection (contents σ2 r) (contents σ2 d) with
     | [] => <[r := difference (contents σ2 r)
                      (visited (contents σ2 d) (opt_features options))]> σ2
     | _ :: _ => σ2
     end,
     spec_validate (opt_name options) (opt_features options)
                   (contents σ2 r) (contents σ2 d)).
Proof.
  intros Hobt. unfold spec_validate.
  destruct (intersection (contents σ2 r) (contents σ2 d)) as [|c cs] eqn:Hint.
  - rewrite (validateOptions_wellformed _ _ _ _ _ _ Hobt Hint).
    destruct (first_disallowed_in (contents σ2 d) (opt_features options))
      as [f|] eqn:Hfirst.
    + apply first_disallowed_in_Some in Hfirst
        as (pre & post & Hfs & Hpre & Hf).
      rewrite Hfs, loop_stop by auto using disjoint_separate.
      by rewrite visited_stop.
    + apply first_disallowed_in_None in Hfirst.
      rewrite loop_through by auto using disjoint_separate.
      rewrite visited_all, contents_insert_difference by done.
      by destruct (difference _ _).
  - rewrite (validateOptions_conflict _ _ _ _ _ _ Hobt), Hint; [done|].
    by rewrite Hint.
Qed.

Lemma validateOptions_verdict cls options σ :
  (validateOptions cls options σ).2
  = spec_validate (opt_name options) (opt_features options)
                  (required_of cls σ) (disallowed_of cls σ).
Proof.
  unfold required_of, disallowed_of.
  destruct (obtained cls σ) as [[σ2 r] d] eqn:Hobt.
  by rewrite (validateOptions_run _ _ _ _ _ _ Hobt).
Qed.

Lemma constructor_run cls options σ :
  BaseCoin_constructor cls options σ
  = ((validateOptions cls options σ).1,
     match (validateOptions cls options σ).2 with
     | inl e => inl e
     | inr _ => inr (coin_of options)
     end).
Proof.
  unfold BaseCoin_constructor, mbind, M_bind.
  by destruct (validateOptions cls options σ) as [σ' [e|[]]].
Qed.

Lemma spec_validate_accepts n fs R D :
  spec_validate n fs R D = inr ()
  ↔ intersection R D = [] ∧ Forall (λ g, g ∉ D) fs ∧ Forall (λ g, g ∈ fs) R.
Proof.
  unfold spec_validate.
  assert (difference R fs = [] ↔ Forall (λ g, g ∈ fs) R) as Hdiff.
  { unfold difference. induction R as [|x R IH]; [by split; [constructor|]|].
    rewrite filter_cons, Forall_cons.
    destruct (decide (x ∉ fs)) as [Hx|Hx]; [split; [done|tauto]|].
    rewrite IH. apply dec_stable in Hx. tauto. }
  destruct (intersection R D) as [|c cs]; [|split; [done|by intros [? _]]].
  destruct (first_disallowed_in D fs) as [f|] eqn:Hfirst.
  - split; [done|]. intros (_ & Hall & _).
    apply first_disallowed_in_None in Hall. congruence.
  - apply first_disallowed_in_None in Hfirst. rewrite <- Hdiff.
    destruct (difference R fs); [tauto|]. split; [done|by intros (_ & _ & ?)].
Qed.

End verdict_function.

Section verdict_properties.
Implicit Types (σ : Store) (r d s : ref) (x y f : CoinFeature.t).
Implicit Types (xs ys fs pre post R D : list CoinFeature.t).
Implicit Types (n : string) (cls : CoinClass) (e : CoinError).
Implicit Types (options : BaseCoinConstructorOptions).

Lemma constructor_error cls options σ e :
  (BaseCoin_constructor cls options σ).2 = inl e
  ↔ (validateOptions cls options σ).2 = inl e.
Proof.
  rewrite constructor_run. cbn [snd].
  destruct (validateOptions cls options σ).2; split; congruence.
Qed.

Lemma constructor_accepts cls options σ :
  (∃ coin, (BaseCoin_constructor cls options σ).2 = inr coin)
  ↔ (validateOptions cls options σ).2 = inr ().
Proof.
  rewrite constructor_run. cbn [snd].
  destruct (validateOptions cls options σ).2 as [e|[]]; split;
    [by intros [? ?]|done|done|by eexists].
Qed.

(** X1. The result of the constructor is a function of the options and
    of the elements of the two sets alone: the error that the validation
    of the spec gives for them, or else the coin assembled from the
    options.  The store and the way the class hands out its sets play no
    part in it. *)
Theorem constructor_refines_spec cls options σ :
  (BaseCoin_constructor cls options σ).2
  = match spec_validate (opt_name options) (opt_features options)
            (required_of cls σ) (disallowed_of cls σ) with
    | inl e => inl e
    | inr _ => inr (coin_of options)
    end.
Proof. by rewrite constructor_run, validateOptions_verdict. Qed.

(** X2. The constructor returns a coin exactly when the two sets of the
    class are disjoint, no supplied feature is disallowed and every
    required feature is supplied. *)
Theorem accepted_iff cls options σ :
  (∃ coin, (BaseCoin_constructor cls options σ).2 = inr coin)
  ↔ intersection (required_of cls σ) (disallowed_of cls σ) = []
    ∧ Forall (λ f, f ∉ disallowed_of cls σ) (opt_features options)
    ∧ Forall (λ f, f ∈ opt_features options) (required_of cls σ).
Proof.
  by rewrite constructor_accepts, validateOptions_verdict,
    spec_validate_accepts.
Qed.

(** X3. [ConflictingCoinFeaturesError] is thrown only for a class whose
    sets overlap, and then with the coin name and the non-empty
    intersection of the two sets. *)
Theorem conflicting_error_iff cls options σ n cs :
  (BaseCoin_constructor cls options σ).2
  = inl (ConflictingCoinFeaturesError n cs)
  ↔ n = opt_name options
    ∧ cs = intersection (required_of cls σ) (disallowed_of cls σ)
    ∧ cs ≠ [].
Proof.
  rewrite constructor_error, validateOptions_verdict. unfold spec_validate.
  destruct (intersection _ _) as [|c cs'].
  - split; [|by intros (_ & -> & ?)].
    destruct (first_disallowed_in _ _); [done|]. by destruct (difference _ _).
  - split; [by intros [= <- <-]|by intros (-> & -> & _)].
Qed.

(** X4. [DisallowedCoinFeatureError] is thrown only for a class whose
    sets are disjoint, and the feature it carries is supplied, disallowed
    and preceded in the supplied list by allowed features only. *)
Theorem disallowed_error_iff cls options σ n f :
  (BaseCoin_constructor cls options σ).2
  = inl (DisallowedCoinFeatureError n f)
  ↔ n = opt_name options
    ∧ intersection (required_of cls σ) (disallowed_of cls σ) = []
    ∧ ∃ pre post, opt_features options = pre ++ f :: post
                  ∧ Forall (λ g, g ∉ disallowed_of cls σ) pre
                  ∧ f ∈ disallowed_of cls σ.
Proof.
  rewrite constructor_error, validateOptions_verdict,
    <- first_disallowed_in_Some.
  unfold spec_validate.
  destruct (intersection _ _) as [|c cs'];
    [|split; [done|by intros (_ & ? & _)]].
  destruct (first_disallowed_in _ _) as [g|].
  - split; [by intros [= <- <-]|by intros (-> & _ & [= ->])].
  - split; [by destruct (difference _ _)|by intros (_ & _ & ?)].
Qed.

(** X5. [MissingRequiredCoinFeatureError] is thrown only when the sets
    are disjoint and no supplied feature is disallowed; its list is not
    empty, is the required features that are not supplied, and keeps them
    in the order of the required set. *)
Theorem missing_error_iff cls options σ n ms :
  (BaseCoin_constructor cls options σ).2
  = inl (MissingRequiredCoinFeatureError n ms)
  ↔ n = opt_name options
    ∧ intersection (required_of cls σ) (disallowed_of cls σ) = []
    ∧ Forall (λ g, g ∉ disallowed_of cls σ) (opt_features options)
    ∧ ms = difference (required_of cls σ) (opt_features options)
    ∧ ms `sublist_of` required_of cls σ
    ∧ ms ≠ [].
Proof.
  rewrite constructor_error, validateOptions_verdict,
    <- first_disallowed_in_None.
  unfold spec_validate.
  destruct (intersection _ _) as [|c cs'];
    [|split; [done|by intros (_ & ? & _)]].
  destruct (first_disallowed_in _ _) as [g|];
    [split; [done|by intros (_ & _ & ? & _)]|].
  destruct (difference _ _) as [|m ms'] eqn:Hdiff.
  - split; [done|by intros (_ & _ & _ & -> & _ & ?)].
  - split.
    + intros [= <- <-]. split_and!; try done.
      rewrite <- Hdiff. apply sublist_filter.
    + by intros (-> & _ & _ & -> & _).
Qed.

(** X6. A feature list that is accepted stays accepted when features
    are added to it, as long as none of the list is disallowed. *)
Theorem accepted_superset cls options σ fs :
  (∃ coin, (BaseCoin_constructor cls options σ).2 = inr coin) →
  (∀ f, f ∈ opt_features options → f ∈ fs) →
  Forall (λ f, f ∉ disallowed_of cls σ) fs →
  ∃ coin, (BaseCoin_constructor cls (with_features options fs) σ).2
          = inr coin.
Proof.
  rewrite !constructor_accepts, !validateOptions_verdict,
    !spec_validate_accepts.
  intros (Hnil & _ & Hreq) Hsub Hall. split_and!; [done|done|].
  cbn [with_features opt_features]. eapply Forall_impl; [exact Hreq|].
  intros f. apply Hsub.
Qed.

(** X7. Two feature lists with the same elements, none of them
    disallowed, give the same run of [validateOptions]: the order and
    the multiplicity of the supplied features change neither its result
    nor the store it leaves. *)
Theorem same_features_same_run cls options σ fs1 fs2 :
  (∀ f, f ∈ fs1 ↔ f ∈ fs2) →
  Forall (λ f, f ∉ disallowed_of cls σ) fs1 →
  validateOptions cls (with_features options fs1) σ
  = validateOptions cls (with_features options fs2) σ.
Proof.
  unfold disallowed_of.
  destruct (obtained cls σ) as [[σ2 r] d] eqn:Hobt. intros Heq Hall1.
  assert (Forall (λ f, f ∉ contents σ2 d) fs2) as Hall2.
  { apply Forall_forall. intros f Hf. apply Heq in Hf.
    by eapply Forall_forall in Hall1. }
  assert (difference (contents σ2 r) fs1 = difference (contents σ2 r) fs2)
    as Hdiff.
  { unfold difference. apply list_filter_iff. intros f. by rewrite Heq. }
  rewrite !(validateOptions_run _ _ _ _ _ _ Hobt).
  cbn [with_features opt_features opt_name]. unfold spec_validate.
  rewrite !visited_all by done.
  rewrite (proj2 (first_disallowed_in_None _ _) Hall1).
  rewrite (proj2 (first_disallowed_in_None _ _) Hall2).
  by rewrite Hdiff.
Qed.

Lemma difference_empty R fs :
  difference R fs = [] ↔ Forall (λ g, g ∈ fs) R.
Proof.
  unfold difference. induction R as [|x R IH]; [by split; [constructor|]|].
  rewrite filter_cons, Forall_cons.
  destruct (decide (x ∉ fs)) as [Hx|Hx]; [split; [done|tauto]|].
  rewrite IH. apply dec_stable in Hx. tauto.
Qed.

(** X8. A validation that succeeds leaves the set that
    [requiredFeatures()] returned empty: every required feature was
    supplied and has been deleted from it. *)
Theorem accepted_empties_required_set cls options σ σ' :
  validateOptions cls options σ = (σ', inr ()) →
  let '(σ2, r, _) := obtained cls σ in
  σ' = <[r := []]> σ2 ∧ contents σ' r = [].
Proof.
  destruct (obtained cls σ) as [[σ2 r] d] eqn:Hobt.
  rewrite (validateOptions_run _ _ _ _ _ _ Hobt). intros [= Hσ' Hres].
  apply spec_validate_accepts in Hres as (Hnil & Hall & Hreq).
  rewrite Hnil, visited_all in Hσ' by done.
  apply difference_empty in Hreq. rewrite <- Hσ'.
  split; [by rewrite Hreq|].
  by rewrite contents_insert_difference.
Qed.

(** X9. A class whose two methods return one kept [Set] each, without
    touching the store, checks its required features once only: after a
    construction that returned a coin, every later construction that
    supplies no disallowed feature returns a coin as well, whichever
    required features it omits, because the required set was emptied. *)
Theorem kept_set_second_construction cls r d o1 o2 σ σ' coin :
  (∀ τ, requiredFeatures cls τ = (τ, r)) →
  (∀ τ, disallowedFeatures cls τ = (τ, d)) →
  BaseCoin_constructor cls o1 σ = (σ', inr coin) →
  Forall (λ f, f ∉ disallowed_of cls σ) (opt_features o2) →
  BaseCoin_constructor cls o2 σ' = (σ', inr (coin_of o2)).
Proof.
  intros Hr Hd Hrun Hall.
  assert (∀ τ, obtained cls τ = (τ, r, d)) as Hobt
    by (intros τ; unfold obtained; by rewrite Hr, Hd).
  unfold disallowed_of in Hall. rewrite Hobt in Hall.
  rewrite constructor_run, (validateOptions_run _ _ _ _ _ _ (Hobt σ)) in Hrun.
  cbn [fst snd] in Hrun.
  destruct (spec_validate _ _ _ _) as [e|[]] eqn:Hres; [done|].
  injection Hrun as Hσ' _.
  apply spec_validate_accepts in Hres as (Hnil & Hall1 & Hreq).
  rewrite Hnil, visited_all in Hσ' by done.
  assert (contents σ' r = []) as Hr'.
  { rewrite <- Hσ', contents_insert_difference. by apply difference_empty. }
  assert (contents σ' d = contents σ d) as Hd'.
  { destruct (disjoint_separate _ _ _ Hnil) as [Hne|Hempty].
    - rewrite <- Hσ'. by apply contents_insert_ne.
    - rewrite <- Hσ', Hempty. cbn. by rewrite <- Hempty, insert_contents. }
  rewrite constructor_run, (validateOptions_run _ _ _ _ _ _ (Hobt σ')).
  rewrite Hr', Hd'. cbn [intersection filter list_filter difference].
  rewrite <- Hr', insert_contents. f_equal.
  assert (spec_validate (opt_name o2) (opt_features o2) (contents σ' r)
            (contents σ d) = inr ()) as ->; [|done].
  apply spec_validate_accepts. rewrite Hr'. by split_and!.
Qed.

(** X10. A class whose two methods create their set anew at each call
    gives the same result in every store, and its constructions leave
    all the sets that exist untouched: they only add to the store.  So
    one construction has no effect on the next. *)
Theorem fresh_sets_independent cls R D options σ :
  (∀ τ, requiredFeatures cls τ = (τ ++ [R], length τ)) →
  (∀ τ, disallowedFeatures cls τ = (τ ++ [D], length τ)) →
  (BaseCoin_constructor cls options σ).2
  = (BaseCoin_constructor cls options []).2
  ∧ σ `prefix_of` (BaseCoin_constructor cls options σ).1.
Proof.
  intros Hr Hd.
  assert (∀ τ, obtained cls τ = ((τ ++ [R]) ++ [D], length τ, S (length τ)))
    as Hobt.
  { intros τ. unfold obtained. rewrite Hr, Hd.
    by rewrite length_app, Nat.add_1_r. }
  assert (∀ τ, contents ((τ ++ [R]) ++ [D]) (length τ) = R) as HR.
  { intros τ. unfold contents.
    rewrite lookup_app_l by (rewrite length_app; cbn; lia).
    by rewrite list_lookup_middle. }
  assert (∀ τ, contents ((τ ++ [R]) ++ [D]) (S (length τ)) = D) as HD.
  { intros τ. unfold contents.
    rewrite (list_lookup_middle (τ ++ [R]) [] D)
      by (by rewrite length_app, Nat.add_1_r).
    done. }
  rewrite !constructor_run. cbn [fst snd].
  rewrite !(validateOptions_run _ _ _ _ _ _ (Hobt _)), !HR, !HD. cbn [fst snd].
  split; [done|].
  destruct (intersection R D).
  - rewrite <- app_assoc, insert_app_r_alt by lia. by apply prefix_app_r.
  - rewrite <- app_assoc. by apply prefix_app_r.
Qed.

(** X11. A class that returns one and the same [Set] from both methods
    is rejected with [ConflictingCoinFeaturesError] listing the whole
    set, whatever is supplied, unless the set is empty; an empty set
    accepts every feature list.  The store is left as it was. *)
Theorem one_set_for_both cls options σ σ2 r :
  obtained cls σ = (σ2, r, r) →
  validateOptions cls options σ
  = (σ2, match contents σ2 r with
         | [] => inr ()
         | (_ :: _) as conflict =>
             inl (ConflictingCoinFeaturesError (opt_name options) conflict)
         end).
Proof.
  intros Hobt. rewrite (validateOptions_run _ _ _ _ _ _ Hobt).
  unfold spec_validate. rewrite intersection_self.
  destruct (contents σ2 r) as [|c cs] eqn:HR; [|done].
  cbn. rewrite <- HR, insert_contents. f_equal.
  assert (first_disallowed_in (contents σ2 r) (opt_features options) = None)
    as ->; [|done].
  apply first_disallowed_in_None, Forall_forall.
  intros f _. rewrite HR. apply not_elem_of_nil.
Qed.

(** X12. With no feature supplied, a class with disjoint sets accepts
    exactly when it requires nothing; otherwise the error lists the
    whole required set, in its order.  Nothing is deleted. *)
Theorem no_features_supplied cls options σ :
  intersection (required_of cls σ) (disallowed_of cls σ) = [] →
  opt_features options = [] →
  validateOptions cls options σ
  = ((obtained cls σ).1.1,
     match required_of cls σ with
     | [] => inr ()
     | (_ :: _) as missing =>
         inl (MissingRequiredCoinFeatureError (opt_name options) missing)
     end).
Proof.
  unfold required_of, disallowed_of.
  destruct (obtained cls σ) as [[σ2 r] d] eqn:Hobt. intros Hnil Hfs.
  rewrite (validateOptions_run _ _ _ _ _ _ Hobt), Hnil, Hfs.
  unfold spec_validate. rewrite Hnil. cbn [first_disallowed_in visited].
  by rewrite difference_nil, insert_contents.
Qed.

End verdict_properties.

Section verdict_witnesses.
Import CoinFeature ScenarioC.

Lemma accepted_superset_witness :
  (∃ coin, (BaseCoin_constructor utxo (btc [UNSPENT_MODEL]) []).2 = inr coin)
  ∧ (∀ f, f ∈ opt_features (btc [UNSPENT_MODEL])
          → f ∈ [CHILD_PAYS_FOR_PARENT; UNSPENT_MODEL])
  ∧ Forall (λ f, f ∉ disallowed_of utxo [])
           [CHILD_PAYS_FOR_PARENT; UNSPENT_MODEL]
  ∧ ∃ coin, (BaseCoin_constructor utxo
               (with_features (btc [UNSPENT_MODEL])
                  [CHILD_PAYS_FOR_PARENT; UNSPENT_MODEL]) []).2 = inr coin.
Proof.
  assert (∃ coin, (BaseCoin_constructor utxo (btc [UNSPENT_MODEL]) []).2
                  = inr coin) as Hacc by (by eexists).
  assert (∀ f, f ∈ opt_features (btc [UNSPENT_MODEL])
               → f ∈ [CHILD_PAYS_FOR_PARENT; UNSPENT_MODEL]) as Hsub.
  { intros f Hf. apply list_elem_of_singleton in Hf as ->. right; left. }
  assert (Forall (λ f, f ∉ disallowed_of utxo [])
                 [CHILD_PAYS_FOR_PARENT; UNSPENT_MODEL]) as Hall.
  { repeat constructor; intros Hin;
      by apply list_elem_of_singleton in Hin. }
  exact (conj Hacc (conj Hsub (conj Hall
    (accepted_superset utxo (btc [UNSPENT_MODEL]) [] _ Hacc Hsub Hall)))).
Defined.

Lemma same_features_same_run_witness :
  (∀ f, f ∈ [UNSPENT_MODEL; PAYGO; UNSPENT_MODEL] ↔ f ∈ [PAYGO; UNSPENT_MODEL])
  ∧ Forall (λ f, f ∉ disallowed_of utxo [])
           [UNSPENT_MODEL; PAYGO; UNSPENT_MODEL]
  ∧ validateOptions utxo
      (with_features (btc []) [UNSPENT_MODEL; PAYGO; UNSPENT_MODEL]) []
    = validateOptions utxo (with_features (btc []) [PAYGO; UNSPENT_MODEL]) [].
Proof.
  assert (∀ f, f ∈ [UNSPENT_MODEL; PAYGO; UNSPENT_MODEL]
               ↔ f ∈ [PAYGO; UNSPENT_MODEL]) as Heq.
  { intros f. rewrite !elem_of_cons. tauto. }
  assert (Forall (λ f, f ∉ disallowed_of utxo [])
                 [UNSPENT_MODEL; PAYGO; UNSPENT_MODEL]) as Hall.
  { repeat constructor; intros Hin;
      by apply list_elem_of_singleton in Hin. }
  exact (conj Heq (conj Hall
    (same_features_same_run utxo (btc []) [] _ _ Heq Hall))).
Defined.

Lemma accepted_empties_required_set_witness :
  validateOptions utxo_kept (btc [UNSPENT_MODEL]) kept_store
  = ([[]; [ACCOUNT_MODEL]], inr ())
  ∧ [[]; [ACCOUNT_MODEL]] = <[0%nat := []]> kept_store
  ∧ contents [[]; [ACCOUNT_MODEL]] 0 = [].
Proof.
  assert (validateOptions utxo_kept (btc [UNSPENT_MODEL]) kept_store
          = ([[]; [ACCOUNT_MODEL]], inr ())) as Hrun by reflexivity.
  exact (conj Hrun
    (accepted_empties_required_set utxo_kept (btc [UNSPENT_MODEL])
       kept_store _ Hrun)).
Defined.

Lemma kept_set_second_construction_witness :
  (∀ τ, requiredFeatures utxo_kept τ = (τ, 0%nat))
  ∧ (∀ τ, disallowedFeatures utxo_kept τ = (τ, 1%nat))
  ∧ BaseCoin_constructor utxo_kept (btc [UNSPENT_MODEL]) kept_store
    = ([[]; [ACCOUNT_MODEL]], inr (coin_of (btc [UNSPENT_MODEL])))
  ∧ Forall (λ f, f ∉ disallowed_of utxo_kept kept_store) (opt_features (btc []))
  ∧ BaseCoin_constructor utxo_kept (btc []) [[]; [ACCOUNT_MODEL]]
    = ([[]; [ACCOUNT_MODEL]], inr (coin_of (btc []))).
Proof.
  assert (∀ τ, requiredFeatures utxo_kept τ = (τ, 0%nat)) as Hr by done.
  assert (∀ τ, disallowedFeatures utxo_kept τ = (τ, 1%nat)) as Hd by done.
  assert (BaseCoin_constructor utxo_kept (btc [UNSPENT_MODEL]) kept_store
          = ([[]; [ACCOUNT_MODEL]], inr (coin_of (btc [UNSPENT_MODEL]))))
    as Hrun by reflexivity.
  assert (Forall (λ f, f ∉ disallowed_of utxo_kept kept_store)
                 (opt_features (btc []))) as Hall by constructor.
  exact (conj Hr (conj Hd (conj Hrun (conj Hall
    (kept_set_second_construction utxo_kept 0 1 _ (btc []) _ _ _
       Hr Hd Hrun Hall))))).
Defined.

Lemma fresh_sets_independent_witness :
  (∀ τ, requiredFeatures utxo τ = (τ ++ [[UNSPENT_MODEL]], length τ))
  ∧ (∀ τ, disallowedFeatures utxo τ = (τ ++ [[ACCOUNT_MODEL]], length τ))
  ∧ (BaseCoin_constructor utxo (btc [CHILD_PAYS_FOR_PARENT]) kept_store).2
    = (BaseCoin_constructor utxo (btc [CHILD_PAYS_FOR_PARENT]) []).2
  ∧ kept_store `prefix_of`
      (BaseCoin_constructor utxo (btc [CHILD_PAYS_FOR_PARENT]) kept_store).1.
Proof.
  assert (∀ τ, requiredFeatures utxo τ = (τ ++ [[UNSPENT_MODEL]], length τ))
    as Hr by done.
  assert (∀ τ, disallowedFeatures utxo τ = (τ ++ [[ACCOUNT_MODEL]], length τ))
    as Hd by done.
  exact (conj Hr (conj Hd
    (fresh_sets_independent utxo _ _ (btc [CHILD_PAYS_FOR_PARENT]) kept_store
       Hr Hd))).
Defined.

Lemma one_set_for_both_witness :
  obtained {| requiredFeatures := kept_set 0; disallowedFeatures := kept_set 0 |}
           [[PAYGO; UNSPENT_MODEL]]
  = ([[PAYGO; UNSPENT_MODEL]], 0%nat, 0%nat)
  ∧ validateOptions
      {| requiredFeatures := kept_set 0; disallowedFeatures := kept_set 0 |}
      (btc [PAYGO]) [[PAYGO; UNSPENT_MODEL]]
    = ([[PAYGO; UNSPENT_MODEL]],
       inl (ConflictingCoinFeaturesError "btc" [PAYGO; UNSPENT_MODEL])).
Proof.
  assert (obtained {| requiredFeatures := kept_set 0;
                      disallowedFeatures := kept_set 0 |}
                   [[PAYGO; UNSPENT_MODEL]]
          = ([[PAYGO; UNSPENT_MODEL]], 0%nat, 0%nat)) as Hobt by reflexivity.
  exact (conj Hobt (one_set_for_both _ (btc [PAYGO]) _ _ _ Hobt)).
Defined.

Lemma no_features_supplied_witness :
  intersection (required_of utxo []) (disallowed_of utxo []) = []
  ∧ opt_features (btc []) = []
  ∧ validateOptions utxo (btc []) []
    = ([[UNSPENT_MODEL]; [ACCOUNT_MODEL]],
       inl (MissingRequiredCoinFeatureError "btc" [UNSPENT_MODEL])).
Proof.
  assert (intersection (required_of utxo []) (disallowed_of utxo []) = [])
    as Hnil by reflexivity.
  assert (opt_features (btc []) = []) as Hfs by reflexivity.
  exact (conj Hnil (conj Hfs (no_features_supplied utxo (btc []) [] Hnil Hfs))).
Defined.

End verdict_witnesses.

(* ===================================================================== *)
(** ** The strings of the enumerations *)
(* ===================================================================== *)

(** X13. Distinct coin features have distinct strings, so the set of
    feature strings determines the set of features. *)
Theorem feature_strings_distinct (f g : CoinFeature.t) :
  CoinFeature.value f = CoinFeature.value g ↔ f = g.
Proof.
  split; [|by intros ->].
  destruct f, g; intros H; (reflexivity || discriminate H).
Qed.

(** X14. Distinct coin families have distinct strings. *)
Theorem family_strings_distinct (f g : CoinFamily.t) :
  CoinFamily.value f = CoinFamily.value g ↔ f = g.
Proof.
  split; [|by intros ->].
  destruct f, g; intros H; (reflexivity || discriminate H).
Qed.

Lemma UnderlyingAsset_of_value_value (a : UnderlyingAsset.t) :
  UnderlyingAsset_of_value (UnderlyingAsset_value a) = Some a.
Proof. destruct a; vm_compute; reflexivity. Qed.

(** X15. Distinct underlying assets have distinct strings: no string is
    given to two members of the enumeration. *)
Theorem asset_strings_distinct (a b : UnderlyingAsset.t) :
  UnderlyingAsset_value a = UnderlyingAsset_value b ↔ a = b.
Proof.
  split; [|by intros ->]. intros Heq.
  pose proof (UnderlyingAsset_of_value_value a) as Ha.
  rewrite Heq, UnderlyingAsset_of_value_value in Ha. congruence.
Qed.

(* ===================================================================== *)
(** ** The catalogue across its networks *)
(* ===================================================================== *)

Ltac distinct_values :=
  repeat (apply NoDup_cons; split;
          [ let H := fresh in
            intros H;
            repeat (apply elem_of_cons in H as [H|H]; [discriminate H|]);
            by apply elem_of_nil in H
          | ]);
  apply NoDup_nil_2.

Lemma get_not_own (ps : list (string * JSVal)) (p : option JSObject)
    (b : bool) (key : string) :
  key ∉ ps.*1 →
  get (mkObject ps p b) key
  = match p with Some o => get o key | None => VUndefined end.
Proof.
  intros Hkey.
  assert (own_lookup ps key = None) as Hnone.
  { induction ps as [|[k v] ps IH]; [done|]. cbn in Hkey |- *.
    apply not_elem_of_cons in Hkey as [Hk Hps].
    destruct (String.eqb_spec k key) as [->|_]; [done|by apply IH]. }
  destruct p; cbn [get]; by rewrite Hnone.
Qed.

(** X16. Every network object has the properties of the interface its
    class implements, as properties of its own: the two of
    [AccountNetwork] and nothing else for the account networks, the
    eight of [UtxoNetwork] for the UTXO networks.  An account network
    therefore yields [undefined] for each address parameter. *)
Theorem networks_have_interface_properties :
  Forall (λ net, (own net).*1 = ["type"; "family"]) account_networks
  ∧ Forall (λ net, (own net).*1 ≡ₚ
                     ["type"; "messagePrefix"; "bech32"; "bip32";
                      "pubKeyHash"; "scriptHash"; "wif"; "family"])
           utxo_networks
  ∧ Forall (λ net, Forall (λ key, get net key = VUndefined)
                          address_parameters) account_networks.
Proof.
  split_and!.
  - repeat constructor.
  - repeat constructor.
    all: cbn; by apply (bool_decide_unpack _).
  - repeat constructor.
Qed.

(** X17. The section a network is filed under agrees with its [type]:
    the networks of [Networks.main] are of type mainnet and those of
    [Networks.test] of type testnet.  The mainnet networks each have the
    string of a coin family as [family], and no two of them the same. *)
Theorem catalogue_sections :
  Forall (λ net, get net "type"
                 = VString (NetworkType.value NetworkType.MAINNET)) mainnets
  ∧ Forall (λ net, get net "type"
                   = VString (NetworkType.value NetworkType.TESTNET))
           testnet_networks
  ∧ Forall (λ net, ∃ fam, get net "family" = VString (CoinFamily.value fam))
           mainnets
  ∧ NoDup ((λ net, get net "family") <$> mainnets).
Proof.
  split_and!.
  - repeat constructor.
  - repeat constructor.
  - repeat constructor.
    + by exists CoinFamily.BTC.
    + by exists CoinFamily.BTG.
    + by exists CoinFamily.LTC.
    + by exists CoinFamily.ETH.
    + by exists CoinFamily.XRP.
    + by exists CoinFamily.XLM.
  - cbn. distinct_values.
Qed.

(** X18. The numbers of every UTXO network fit their encoding: the
    public-key-hash, script-hash and WIF versions are bytes, and the two
    [bip32] versions are unsigned 32-bit numbers. *)
Theorem version_numbers_in_range :
  Forall (λ net, Forall (number_below 256) (version_bytes net)
                 ∧ Forall (number_below (2 ^ 32)) (bip32_versions net))
         utxo_networks.
Proof.
  unfold utxo_networks.
  repeat (apply Forall_cons; split); try apply Forall_nil.
  all: split; unfold version_bytes, bip32_versions.
  all: repeat (apply Forall_cons; split); try apply Forall_nil.
  all: cbn; try done.
  all: unfold BTC_FAMILY_WIF, BTC_FAMILY_MAINNET_BIP32_PUBLIC,
         BTC_FAMILY_MAINNET_BIP32_PRIVATE; lia.
Qed.

(** X19. No two UTXO networks share a bech32 prefix, and a UTXO testnet
    differs from its mainnet network in the public-key-hash and the
    script-hash version, so an address tells the two apart. *)
Theorem networks_distinguishable :
  NoDup ((λ net, get net "bech32") <$> utxo_networks)
  ∧ Forall (λ '(testnet, mainnet),
              get testnet "pubKeyHash" ≠ get mainnet "pubKeyHash"
              ∧ get testnet "scriptHash" ≠ get mainnet "scriptHash"
              ∧ get testnet "bech32" ≠ get mainnet "bech32")
           utxo_testnets.
Proof.
  split; [cbn; distinct_values|].
  repeat constructor; discriminate.
Qed.

(** X20. The family of a constructed coin is the family of the network
    of its options: [undefined] on each testnet network of the
    catalogue, and on each mainnet network the string of the coin family
    that the class of the network declares. *)
Theorem coin_family_on_catalogue
    (cls : CoinClass) (options : BaseCoinConstructorOptions)
    (σ σ' : Store) (coin : BaseCoin) :
  BaseCoin_constructor cls options σ = (σ', inr coin) →
  family coin = get (opt_network options) "family"
  ∧ (opt_network options ∈ testnet_networks → family coin = VUndefined)
  ∧ Forall (λ '(net, fam),
              opt_network options = net →
              family coin = VString (CoinFamily.value fam)) mainnet_families.
Proof.
  rewrite constructor_run.
  destruct (validateOptions cls options σ).2; intros [= _ <-].
  cbn [coin_of family]. split_and!; [done| |].
  - intros Hnet.
    repeat (apply elem_of_cons in Hnet as [->|Hnet]; [done|]).
    by apply elem_of_nil in Hnet.
  - unfold mainnet_families.
    repeat (apply Forall_cons; split); try apply Forall_nil; try done.
    all: by intros ->.
Qed.

Section catalogue_witnesses.
Import CoinFeature ScenarioC.

Lemma coin_family_on_catalogue_witness :
  BaseCoin_constructor utxo
    {| opt_fullName := "Testnet Bitcoin"; opt_name := "tbtc";
       opt_prefix := None; opt_suffix := None; opt_kind := CoinKind.CRYPTO;
       opt_isToken := false; opt_features := [UNSPENT_MODEL];
       opt_decimalPlaces := 8; opt_asset := UnderlyingAsset.BTC;
       opt_network := Networks.test.bitcoin |} []
  = ([[]; [ACCOUNT_MODEL]],
     inr {| fullName := "Testnet Bitcoin"; name := "tbtc"; prefix := None;
            suffix := None; kind := CoinKind.CRYPTO; family := VUndefined;
            isToken := false; features := [UNSPENT_MODEL];
            network := Networks.test.bitcoin; decimalPlaces := 8;
            asset := UnderlyingAsset.BTC |})
  ∧ Networks.test.bitcoin ∈ testnet_networks
  ∧ VUndefined = VUndefined.
Proof.
  assert (Networks.test.bitcoin ∈ testnet_networks) as Hnet by left.
  assert (BaseCoin_constructor utxo
            {| opt_fullName := "Testnet Bitcoin"; opt_name := "tbtc";
               opt_prefix := None; opt_suffix := None;
               opt_kind := CoinKind.CRYPTO; opt_isToken := false;
               opt_features := [UNSPENT_MODEL]; opt_decimalPlaces := 8;
               opt_asset := UnderlyingAsset.BTC;
               opt_network := Networks.test.bitcoin |} []
          = ([[]; [ACCOUNT_MODEL]],
             inr {| fullName := "Testnet Bitcoin"; name := "tbtc";
                    prefix := None; suffix := None; kind := CoinKind.CRYPTO;
                    family := VUndefined; isToken := false;
                    features := [UNSPENT_MODEL];
                    network := Networks.test.bitcoin; decimalPlaces := 8;
                    asset := UnderlyingAsset.BTC |})) as Hrun by reflexivity.
  exact (conj Hrun (conj Hnet
    (proj1 (proj2 (coin_family_on_catalogue _ _ _ _ _ Hrun)) Hnet))).
Defined.

End catalogue_witnesses.

(* ===================================================================== *)
(** ** Acceptance of the required features, and the effects of a
    validation *)
(* ===================================================================== *)

Section acceptance_and_effects.
Implicit Types (σ : Store) (r d s : ref) (f : CoinFeature.t).
Implicit Types (cls : CoinClass) (options : BaseCoinConstructorOptions).


(** C6, as amended.  A construction deletes, from the set that
    [requiredFeatures()] returned, the supplied features that the loop
    visited: those before the first disallowed one, all of them if none
    is disallowed, none if the contract conflicts.  Every other [Set]
    object is as it was, and the set that [disallowedFeatures()]
    returned keeps its elements.  When the validation throws, the
    constructor throws the same error and returns no coin. *)
Theorem validation_effects cls options σ :
  let '(σ2, r, d) := obtained cls σ in
  let '(σ', res) := BaseCoin_constructor cls options σ in
  let deleted :=
    match intersection (contents σ2 r) (contents σ2 d) with
    | [] => visited (contents σ2 d) (opt_features options)
    | _ :: _ => []
    end in
  σ' = <[r := difference (contents σ2 r) deleted]> σ2
  ∧ contents σ' r = difference (contents σ2 r) deleted
  ∧ (∀ s, s ≠ r → σ' !! s = σ2 !! s)
  ∧ contents σ' d = contents σ2 d
  ∧ σ' = (validateOptions cls options σ).1
  ∧ ∀ e, (validateOptions cls options σ).2 = inl e → res = inl e.
Proof.
  destruct (obtained cls σ) as [[σ2 r] d] eqn:Hobt.
  rewrite constructor_run, (validateOptions_run _ _ _ _ _ _ Hobt).
  cbn [fst snd].
  set (deleted := match intersection (contents σ2 r) (contents σ2 d) with
                  | [] => visited (contents σ2 d) (opt_features options)
                  | _ :: _ => []
                  end).
  assert (match intersection (contents σ2 r) (contents σ2 d) with
          | [] => <[r := difference (contents σ2 r)
                           (visited (contents σ2 d) (opt_features options))]> σ2
          | _ :: _ => σ2
          end = <[r := difference (contents σ2 r) deleted]> σ2) as ->.
  { unfold deleted. destruct (intersection _ _); [done|].
    by rewrite difference_nil, insert_contents. }
  split_and!; [done| | | |done|].
  - apply contents_insert_difference.
  - intros s Hs. by rewrite list_lookup_insert_ne.
  - destruct (intersection (contents σ2 r) (contents σ2 d)) eqn:Hint.
    + destruct (disjoint_separate _ _ _ Hint) as [Hne|Hempty].
      * by apply contents_insert_ne.
      * rewrite Hempty. cbn. by rewrite <- Hempty, insert_contents.
    + unfold deleted. by rewrite difference_nil, insert_contents.
  - intros e He. by rewrite He.
Qed.

End acceptance_and_effects.

Section acceptance_witnesses.
Import CoinFeature ScenarioC.



End acceptance_witnesses.
